(** * Metrics collectors of [sglang.srt.metrics.collector]

    A shallow embedding of [python/sglang/srt/metrics/collector.py] and the
    properties of its two collectors.

    Numbers.  Python [float] values are modelled as exact rationals ([Qc],
    canonical fractions, so that equality is Leibniz equality); the one
    non-finite float the code meets, the [+Inf] upper bound that closes
    every bucket ladder, is a constructor of its own ([bound]).  Python
    [int] values are [Z].  NaN and overflow of binary64 are outside the
    model.  Rounding is outside the exact definitions; where a property
    depends on it (one call against single samples, two calls in either
    order) the definitions of module [Rounded] pass every arithmetic
    result through a rounding [rnd], of which a bound on the relative
    error is assumed.

    Effects.  Methods mutate the collector and may raise; they are state
    transformers that return the outcome of the call (returned or raised)
    together with the state the call left behind, so that what a call has
    already written when it raises stays visible. *)

From Stdlib Require Import ZArith QArith Qcanon Lia Lqa.
From Stdlib Require Qcabs.
From stdpp Require Import base option list gmap strings numbers.

Open Scope Z_scope.
Open Scope Qc_scope.

(** ** Python: exceptions, mutable attributes, numbers *)

Module Py.

Inductive exn : Type :=
| ZeroDivisionError
| ValueError
| IndexError.

Inductive outcome (A : Type) : Type :=
| Returned (a : A)
| Raised (e : exn).

Arguments Returned {A} a.
Arguments Raised {A} e.

(** A method body over a mutable object of type [S]. *)
Definition M (S A : Type) : Type := S -> outcome A * S.

Definition ret {S A} (a : A) : M S A := fun s => (Returned a, s).

Definition raise {S A} (e : exn) : M S A := fun s => (Raised e, s).

Definition bind {S A B} (m : M S A) (k : A -> M S B) : M S B :=
  fun s =>
    match m s with
    | (Returned a, s') => k a s'
    | (Raised e, s') => (Raised e, s')
    end.

Definition get {S} : M S S := fun s => (Returned s, s).

Definition modify {S} (f : S -> S) : M S unit := fun s => (Returned tt, f s).

(** An attribute of an object: how to read it and how to write it back. *)
Record attr (S T : Type) : Type := Attr {
  getattr : S -> T;
  setattr : T -> S -> S
}.

Arguments Attr {S T} getattr setattr.
Arguments getattr {S T} a s.
Arguments setattr {S T} a t s.

(** [on a m] runs [m] on the object held by attribute [a]; the object is
    shared, so its mutations are seen through [a] afterwards, also when
    [m] raises. *)
Definition on {S T A} (a : attr S T) (m : M T A) : M S A :=
  fun s =>
    let '(r, t') := m (getattr a s) in
    (r, setattr a t' s).

(** The outcome of a computation without state, and its use inside a method. *)
Definition obind {A B} (o : outcome A) (k : A -> outcome B) : outcome B :=
  match o with
  | Returned a => k a
  | Raised e => Raised e
  end.

Definition lift {S A} (o : outcome A) : M S A := fun s => (o, s).

(** The value a computation returned, [d] when it raised. *)
Definition returned {A} (d : A) (o : outcome A) : A :=
  match o with
  | Returned a => a
  | Raised _ => d
  end.

(** [float(n)] for an [int]. *)
Definition float (n : Z) : Qc := Qc_of_Z n.

(** [x / n] for a [float] [x] and an [int] [n]. *)
Definition truediv (x : Qc) (n : Z) : outcome Qc :=
  if (n =? 0)%Z then Raised ZeroDivisionError else Returned (x / float n).

(** A [float] literal. *)
Definition lit (q : Q) : Qc := Q2Qc q.

End Py.

Export Py.

(** Sequencing is written with stdpp's monad notation: [x ← m; k] and [m;; k]. *)
#[global] Instance M_ret {S} : MRet (M S) := fun A => @ret S A.
#[global] Instance M_bind {S} : MBind (M S) := fun A B k m => @bind S A B m k.
#[global] Instance outcome_ret : MRet outcome := @Returned.
#[global] Instance outcome_bind : MBind outcome := fun A B k o => @obind A B o k.

(** ** The primitives of [prometheus_client] the collectors are built from *)

Module Prom.

(** An upper bound of a histogram bucket: a finite [float] or [INF]. *)
Inductive bound : Type :=
| Fin (q : Qc)
| Inf.

(** [x <= bound] for a finite [x]. *)
Definition float_le (x : Qc) (b : bound) : bool :=
  match b with
  | Fin q => Qle_bool x q
  | Inf => true
  end.

Definition bound_le (a b : bound) : bool :=
  match a with
  | Fin x => float_le x b
  | Inf => match b with Inf => true | Fin _ => false end
  end.

Definition is_inf (b : bound) : bool :=
  match b with Inf => true | Fin _ => false end.

(** A list of finite [float] literals as bucket bounds. *)
Definition ladder (buckets : list Q) : list bound :=
  map (fun q => Fin (lit q)) buckets.

(** [buckets == sorted(buckets)]. *)
Fixpoint is_sorted (buckets : list bound) : bool :=
  match buckets with
  | [] => true
  | a :: rest =>
      match rest with
      | [] => true
      | b :: _ => bound_le a b && is_sorted rest
      end
  end.

(** A ladder whose bounds grow strictly, and one whose finest bucket is
    below one second. *)
Fixpoint ascending (buckets : list bound) : bool :=
  match buckets with
  | [] => true
  | a :: rest =>
      match rest with
      | [] => true
      | b :: _ => negb (bound_le b a) && ascending rest
      end
  end.

Definition sub_second (buckets : list bound) : bool :=
  match buckets with
  | [] => false
  | a :: _ => negb (bound_le (Fin 1) a)
  end.

(** Modelled from the spec: [Histogram._prepare_buckets] of the library,
    which is not under src/.  The ladder must be ascending (a malformed
    ladder is fatal at construction) and is closed by the final implicit
    [+Inf] bucket. *)
Definition _prepare_buckets (source_buckets : list bound) : outcome (list bound) :=
  if negb (is_sorted source_buckets) then Raised ValueError
  else
    let buckets :=
      match list.last source_buckets with
      | Some Inf | None => source_buckets
      | Some (Fin _) => source_buckets ++ [Inf]
      end in
    if (length buckets <? 2)%nat then Raised ValueError else Returned buckets.

(** *** Labelled metrics

    A metric constructed with label names keeps one state per label tuple
    (the label values, in the order of the names) and creates it on the
    first [labels(...)] call for that tuple.  The collectors construct
    every metric with [labelnames=labels.keys()] and reach its state with
    [.labels] applied to [self.labels], the same dictionary, so the names
    always match and the tuple is the dictionary's values.  The dictionary
    is taken to name at least one label, as the engine's does; the check
    of the names that [labels(...)] makes is not modelled. *)

Definition labelvalues (labels : list (string * string)) : list string :=
  map snd labels.

(** The state under [key], where a state not yet created reads as [fresh];
    writing it back creates it. *)
Definition child {V} (fresh : V) (key : list string) : attr (gmap (list string) V) V :=
  Attr (fun m => default fresh (m !! key)) (fun v m => <[key := v]> m).

(** *** Counter *)

(** Modelled from the spec: the library's labelled [Counter], which is not
    under src/: one accumulated value per label tuple, and an increment
    that is refused when the amount is negative. *)
Record Counter : Type := MkCounter {
  c_name : string;
  c_documentation : string;
  c_labelnames : list string;
  c_metrics : gmap (list string) Qc
}.

Definition Counter_init (name documentation : string) (labelnames : list string) : Counter :=
  MkCounter name documentation labelnames ∅.

Definition c_metrics_ : attr Counter (gmap (list string) Qc) :=
  Attr c_metrics
       (fun m c => MkCounter (c_name c) (c_documentation c) (c_labelnames c) m).

(** [counter.labels] on a label tuple: the value under it. *)
Definition Counter_labels {A} (key : list string) (m : M Qc A) : M Counter A :=
  on c_metrics_ (on (child 0 key) m).

(** [.inc(amount)] on a counter's value. *)
Definition Counter_inc (amount : Qc) : M Qc unit :=
  if Qle_bool 0 amount then modify (fun v => v + amount) else raise ValueError.

(** What a counter reads under a label tuple. *)
Definition Counter_value (key : list string) (c : Counter) : Qc :=
  getattr (child 0 key) (c_metrics c).

(** Writing a value back under a label tuple. *)
Definition Counter_store (key : list string) (value : Qc) (c : Counter) : Counter :=
  setattr c_metrics_ (<[key := value]> (c_metrics c)) c.

(** *** Gauge *)

(** Modelled from the spec: the library's labelled [Gauge], which is not
    under src/: the last value written per label tuple. *)
Record Gauge : Type := MkGauge {
  g_name : string;
  g_documentation : string;
  g_labelnames : list string;
  g_multiprocess_mode : string;
  g_metrics : gmap (list string) Qc
}.

Definition Gauge_init (name documentation : string) (labelnames : list string)
    (multiprocess_mode : string) : Gauge :=
  MkGauge name documentation labelnames multiprocess_mode ∅.

Definition g_metrics_ : attr Gauge (gmap (list string) Qc) :=
  Attr g_metrics
       (fun m g => MkGauge (g_name g) (g_documentation g) (g_labelnames g)
                           (g_multiprocess_mode g) m).

Definition Gauge_labels {A} (key : list string) (m : M Qc A) : M Gauge A :=
  on g_metrics_ (on (child 0 key) m).

(** [.set(value)] on a gauge's value. *)
Definition Gauge_set (value : Qc) : M Qc unit := modify (fun _ => value).

(** Writing a value back under a label tuple. *)
Definition Gauge_store (key : list string) (value : Qc) (g : Gauge) : Gauge :=
  setattr g_metrics_ (<[key := value]> (g_metrics g)) g.

(** *** Histogram *)

(** The state of a histogram under one label tuple, with the three
    attributes [observe_inter_token_latency] reaches into: the running
    sum, the upper bounds and one counter per bound. *)
Record HistogramChild : Type := MkChild {
  _sum : Qc;
  _upper_bounds : list bound;
  _buckets : list Qc
}.

Definition _sum_ : attr HistogramChild Qc :=
  Attr _sum (fun v his => MkChild v (_upper_bounds his) (_buckets his)).

Definition _buckets_ : attr HistogramChild (list Qc) :=
  Attr _buckets (fun v his => MkChild (_sum his) (_upper_bounds his) v).

(** Modelled from the spec: the library's labelled [Histogram], which is
    not under src/: a fixed ascending ladder closed by the implicit [+Inf]
    bucket, and per label tuple one counter per bucket and a running sum. *)
Record Histogram : Type := MkHistogram {
  h_name : string;
  h_documentation : string;
  h_labelnames : list string;
  h_upper_bounds : list bound;
  h_metrics : gmap (list string) HistogramChild
}.

Definition Histogram_init (name documentation : string) (labelnames : list string)
    (buckets : list bound) : outcome Histogram :=
  match _prepare_buckets buckets with
  | Returned upper_bounds =>
      Returned (MkHistogram name documentation labelnames upper_bounds ∅)
  | Raised e => Raised e
  end.

Definition h_metrics_ : attr Histogram (gmap (list string) HistogramChild) :=
  Attr h_metrics
       (fun m h => MkHistogram (h_name h) (h_documentation h) (h_labelnames h)
                               (h_upper_bounds h) m).

(** The state a label tuple starts from: sum 0 and every bucket 0. *)
Definition _metric_init (upper_bounds : list bound) : HistogramChild :=
  MkChild 0 upper_bounds (replicate (length upper_bounds) 0).

(** [histogram.labels] on a label tuple: the state under it. *)
Definition Histogram_labels {A} (key : list string) (m : M HistogramChild A) : M Histogram A :=
  fun h => on h_metrics_ (on (child (_metric_init (h_upper_bounds h)) key) m) h.

(** [value.inc(amount)] on the value behind [_sum] or [_buckets[i]]: no
    sign check. *)
Definition inc (amount : Qc) (value : Qc) : Qc := value + amount.

(** The loop
<<
    for i, bound in enumerate(upper_bounds):
        if x <= bound:
            buckets[i].inc(amount)
            break
>>
    from index [i] on, over the bounds not yet visited. *)
Fixpoint scan (x amount : Qc) (i : nat) (upper_bounds : list bound) : M (list Qc) unit :=
  match upper_bounds with
  | [] => ret tt
  | bound :: rest =>
      if float_le x bound then
        fun buckets =>
          match buckets !! i with
          | Some value => (Returned tt, <[i := inc amount value]> buckets)
          | None => (Raised IndexError, buckets)
          end
      else scan x amount (S i) rest
  end.

(** Modelled from the spec: [Histogram.observe] of the library, which is
    not under src/: it records one sample. *)
Definition observe (amount : Qc) : M HistogramChild unit :=
  on _sum_ (modify (inc amount));;
  self ← get;
  on _buckets_ (scan amount 1 0 (_upper_bounds self)).

(** What a histogram reads under a label tuple (a state not yet created
    reads as the state it would start from). *)
Definition Histogram_child (key : list string) (h : Histogram) : HistogramChild :=
  getattr (child (_metric_init (h_upper_bounds h)) key) (h_metrics h).

(** Writing a state back under a label tuple. *)
Definition Histogram_store (key : list string) (his : HistogramChild) (h : Histogram) : Histogram :=
  setattr h_metrics_ (<[key := his]> (h_metrics h)) h.

(** The histogram after [.labels(...).observe(amount)] under a label tuple. *)
Definition Histogram_observe (key : list string) (amount : Qc) (h : Histogram) : Histogram :=
  Histogram_store key (snd (observe amount (Histogram_child key h))) h.

(** The sum of the counters of the buckets whose bound satisfies [p]. *)
Fixpoint count_where (p : bound -> bool) (upper_bounds : list bound) (buckets : list Qc) : Qc :=
  match upper_bounds, buckets with
  | bound :: upper_bounds', value :: buckets' =>
      (if p bound then value else 0) + count_where p upper_bounds' buckets'
  | _, _ => 0
  end.

(** Modelled from the spec: how a histogram state is read.  Counters are
    kept per bucket and exported cumulatively, so the count the final
    [+Inf] bucket exports, which is the total observation count, is the
    sum of all counters; the finite buckets and the overflow bucket split
    it. *)
Definition _count (his : HistogramChild) : Qc :=
  count_where (fun _ => true) (_upper_bounds his) (_buckets his).

Definition finite_count (his : HistogramChild) : Qc :=
  count_where (fun bound => negb (is_inf bound)) (_upper_bounds his) (_buckets his).

Definition overflow_count (his : HistogramChild) : Qc :=
  count_where is_inf (_upper_bounds his) (_buckets his).

(** Modelled from the spec: the count bucket [j] exports.  Counters are
    exported cumulatively: a bucket shows its own counter and the counters
    of the buckets before it. *)
Definition cumulative (his : HistogramChild) (j : nat) : Qc :=
  foldr Qcplus 0 (take (S j) (_buckets his)).

(** The shape every histogram state has: one counter per bound, under the
    ladder of its histogram, which [+Inf] closes. *)
Definition wf_child (his : HistogramChild) : Prop :=
  length (_buckets his) = length (_upper_bounds his).

Definition wf_histogram (h : Histogram) : Prop :=
  Inf ∈ h_upper_bounds h ∧
  ∀ key his, h_metrics h !! key = Some his →
             _upper_bounds his = h_upper_bounds h ∧ wf_child his.

End Prom.

Export Prom.

(** ** [SchedulerStats] *)

Module SchedulerStats.

Record t : Type := Make {
  num_running_reqs : Z;
  num_used_tokens : Z;
  token_usage : Qc;
  gen_throughput : Qc;
  num_queue_reqs : Z;
  cache_hit_rate : Qc;
  spec_accept_length : Qc
}.

(** The dataclass defaults. *)
Definition default : t := Make 0 0 0 0 0 0 0.

End SchedulerStats.

(** ** [SchedulerMetricsCollector] *)

Module SchedulerMetricsCollector.

Record t : Type := Make {
  labels : list (string * string);
  last_log_time : Qc;
  num_running_reqs : Gauge;
  num_used_tokens : Gauge;
  token_usage : Gauge;
  gen_throughput : Gauge;
  num_queue_reqs : Gauge;
  cache_hit_rate : Gauge;
  spec_accept_length : Gauge;
  histogram_request_queue_latency : Histogram
}.

Definition last_log_time_ : attr t Qc :=
  Attr last_log_time
       (fun v self =>
          Make (labels self) v (num_running_reqs self) (num_used_tokens self)
               (token_usage self) (gen_throughput self) (num_queue_reqs self)
               (cache_hit_rate self) (spec_accept_length self)
               (histogram_request_queue_latency self)).

Definition num_running_reqs_ : attr t Gauge :=
  Attr num_running_reqs
       (fun v self =>
          Make (labels self) (last_log_time self) v (num_used_tokens self)
               (token_usage self) (gen_throughput self) (num_queue_reqs self)
               (cache_hit_rate self) (spec_accept_length self)
               (histogram_request_queue_latency self)).

Definition num_used_tokens_ : attr t Gauge :=
  Attr num_used_tokens
       (fun v self =>
          Make (labels self) (last_log_time self) (num_running_reqs self) v
               (token_usage self) (gen_throughput self) (num_queue_reqs self)
               (cache_hit_rate self) (spec_accept_length self)
               (histogram_request_queue_latency self)).

Definition token_usage_ : attr t Gauge :=
  Attr token_usage
       (fun v self =>
          Make (labels self) (last_log_time self) (num_running_reqs self)
               (num_used_tokens self) v (gen_throughput self) (num_queue_reqs self)
               (cache_hit_rate self) (spec_accept_length self)
               (histogram_request_queue_latency self)).

Definition gen_throughput_ : attr t Gauge :=
  Attr gen_throughput
       (fun v self =>
          Make (labels self) (last_log_time self) (num_running_reqs self)
               (num_used_tokens self) (token_usage self) v (num_queue_reqs self)
               (cache_hit_rate self) (spec_accept_length self)
               (histogram_request_queue_latency self)).

Definition num_queue_reqs_ : attr t Gauge :=
  Attr num_queue_reqs
       (fun v self =>
          Make (labels self) (last_log_time self) (num_running_reqs self)
               (num_used_tokens self) (token_usage self) (gen_throughput self) v
               (cache_hit_rate self) (spec_accept_length self)
               (histogram_request_queue_latency self)).

Definition cache_hit_rate_ : attr t Gauge :=
  Attr cache_hit_rate
       (fun v self =>
          Make (labels self) (last_log_time self) (num_running_reqs self)
               (num_used_tokens self) (token_usage self) (gen_throughput self)
               (num_queue_reqs self) v (spec_accept_length self)
               (histogram_request_queue_latency self)).

Definition spec_accept_length_ : attr t Gauge :=
  Attr spec_accept_length
       (fun v self =>
          Make (labels self) (last_log_time self) (num_running_reqs self)
               (num_used_tokens self) (token_usage self) (gen_throughput self)
               (num_queue_reqs self) (cache_hit_rate self) v
               (histogram_request_queue_latency self)).

Definition histogram_request_queue_latency_ : attr t Histogram :=
  Attr histogram_request_queue_latency
       (fun v self =>
          Make (labels self) (last_log_time self) (num_running_reqs self)
               (num_used_tokens self) (token_usage self) (gen_throughput self)
               (num_queue_reqs self) (cache_hit_rate self) (spec_accept_length self)
               v).

Definition request_queue_latency_buckets : list bound :=
  ladder
    [0.001; 0.002; 0.005; 0.010; 0.020; 0.050; 0.100; 0.200; 0.500; 1.000;
     2.000; 5.000; 10.000; 20.000; 30.000; 60.000]%Q.

(** [__init__(self, labels)]; [now] is what [time.time()] returns. *)
Definition __init__ (labels : list (string * string)) (now : Qc) : outcome t :=
  let labelnames := map fst labels in
  let num_running_reqs :=
    Gauge_init "sglang:num_running_reqs" "The number of running requests."
               labelnames "mostrecent" in
  let num_used_tokens :=
    Gauge_init "sglang:num_used_tokens" "The number of used tokens."
               labelnames "mostrecent" in
  let token_usage :=
    Gauge_init "sglang:token_usage" "The token usage."
               labelnames "mostrecent" in
  let gen_throughput :=
    Gauge_init "sglang:gen_throughput" "The generation throughput (token/s)."
               labelnames "mostrecent" in
  let num_queue_reqs :=
    Gauge_init "sglang:num_queue_reqs" "The number of requests in the waiting queue."
               labelnames "mostrecent" in
  let cache_hit_rate :=
    Gauge_init "sglang:cache_hit_rate" "The prefix cache hit rate."
               labelnames "mostrecent" in
  let spec_accept_length :=
    Gauge_init "sglang:spec_accept_length"
               "The average acceptance length of speculative decoding."
               labelnames "mostrecent" in
  histogram_request_queue_latency ←
    Histogram_init "sglang:request_queue_latency_seconds"
                   "Histogram of time requests spend in queue before processing"
                   labelnames request_queue_latency_buckets;
  mret (Make labels now num_running_reqs num_used_tokens token_usage gen_throughput
             num_queue_reqs cache_hit_rate spec_accept_length
             histogram_request_queue_latency).

(** [gauge.labels] applied to [self.labels], then [.set(data)]. *)
Definition _log_gauge (gauge : attr t Gauge) (data : Qc) : M t unit :=
  self ← get;
  on gauge (Gauge_labels (labelvalues (labels self)) (Gauge_set data)).

(** [log_stats(self, stats)]; [now] is what [time.time()] returns. *)
Definition log_stats (stats : SchedulerStats.t) (now : Qc) : M t unit :=
  _log_gauge num_running_reqs_ (float (SchedulerStats.num_running_reqs stats));;
  _log_gauge num_used_tokens_ (float (SchedulerStats.num_used_tokens stats));;
  _log_gauge token_usage_ (SchedulerStats.token_usage stats);;
  _log_gauge gen_throughput_ (SchedulerStats.gen_throughput stats);;
  _log_gauge num_queue_reqs_ (float (SchedulerStats.num_queue_reqs stats));;
  _log_gauge cache_hit_rate_ (SchedulerStats.cache_hit_rate stats);;
  _log_gauge spec_accept_length_ (SchedulerStats.spec_accept_length stats);;
  modify (setattr last_log_time_ now).

Definition observe_request_queue_latency (latency : Qc) : M t unit :=
  self ← get;
  on histogram_request_queue_latency_
     (Histogram_labels (labelvalues (labels self)) (observe latency)).

(** The gauges the collector owns, in the order of construction. *)
Definition gauges (self : t) : list Gauge :=
  [num_running_reqs self; num_used_tokens self; token_usage self; gen_throughput self;
   num_queue_reqs self; cache_hit_rate self; spec_accept_length self].

End SchedulerMetricsCollector.

(** ** [TokenizerMetricsCollector] *)

Module TokenizerMetricsCollector.

Record t : Type := Make {
  labels : list (string * string);
  prompt_tokens_total : Counter;
  generation_tokens_total : Counter;
  cached_tokens_total : Counter;
  num_requests_total : Counter;
  histogram_time_to_first_token : Histogram;
  histogram_time_per_output_token : Histogram;
  histogram_inter_token_latency_seconds : Histogram;
  histogram_e2e_request_latency : Histogram;
  histogram_tokenization_latency : Histogram;
  histogram_detokenization_latency : Histogram
}.

Definition prompt_tokens_total_ : attr t Counter :=
  Attr prompt_tokens_total
       (fun v self =>
          Make (labels self) v (generation_tokens_total self) (cached_tokens_total
               self) (num_requests_total self) (histogram_time_to_first_token self)
               (histogram_time_per_output_token self)
               (histogram_inter_token_latency_seconds self)
               (histogram_e2e_request_latency self) (histogram_tokenization_latency
               self) (histogram_detokenization_latency self)).

Definition generation_tokens_total_ : attr t Counter :=
  Attr generation_tokens_total
       (fun v self =>
          Make (labels self) (prompt_tokens_total self) v (cached_tokens_total self)
               (num_requests_total self) (histogram_time_to_first_token self)
               (histogram_time_per_output_token self)
               (histogram_inter_token_latency_seconds self)
               (histogram_e2e_request_latency self) (histogram_tokenization_latency
               self) (histogram_detokenization_latency self)).

Definition cached_tokens_total_ : attr t Counter :=
  Attr cached_tokens_total
       (fun v self =>
          Make (labels self) (prompt_tokens_total self) (generation_tokens_total
               self) v (num_requests_total self) (histogram_time_to_first_token self)
               (histogram_time_per_output_token self)
               (histogram_inter_token_latency_seconds self)
               (histogram_e2e_request_latency self) (histogram_tokenization_latency
               self) (histogram_detokenization_latency self)).

Definition num_requests_total_ : attr t Counter :=
  Attr num_requests_total
       (fun v self =>
          Make (labels self) (prompt_tokens_total self) (generation_tokens_total
               self) (cached_tokens_total self) v (histogram_time_to_first_token
               self) (histogram_time_per_output_token self)
               (histogram_inter_token_latency_seconds self)
               (histogram_e2e_request_latency self) (histogram_tokenization_latency
               self) (histogram_detokenization_latency self)).

Definition histogram_time_to_first_token_ : attr t Histogram :=
  Attr histogram_time_to_first_token
       (fun v self =>
          Make (labels self) (prompt_tokens_total self) (generation_tokens_total
               self) (cached_tokens_total self) (num_requests_total self) v
               (histogram_time_per_output_token self)
               (histogram_inter_token_latency_seconds self)
               (histogram_e2e_request_latency self) (histogram_tokenization_latency
               self) (histogram_detokenization_latency self)).

Definition histogram_time_per_output_token_ : attr t Histogram :=
  Attr histogram_time_per_output_token
       (fun v self =>
          Make (labels self) (prompt_tokens_total self) (generation_tokens_total
               self) (cached_tokens_total self) (num_requests_total self)
               (histogram_time_to_first_token self) v
               (histogram_inter_token_latency_seconds self)
               (histogram_e2e_request_latency self) (histogram_tokenization_latency
               self) (histogram_detokenization_latency self)).

Definition histogram_inter_token_latency_seconds_ : attr t Histogram :=
  Attr histogram_inter_token_latency_seconds
       (fun v self =>
          Make (labels self) (prompt_tokens_total self) (generation_tokens_total
               self) (cached_tokens_total self) (num_requests_total self)
               (histogram_time_to_first_token self) (histogram_time_per_output_token
               self) v (histogram_e2e_request_latency self)
               (histogram_tokenization_latency self)
               (histogram_detokenization_latency self)).

Definition histogram_e2e_request_latency_ : attr t Histogram :=
  Attr histogram_e2e_request_latency
       (fun v self =>
          Make (labels self) (prompt_tokens_total self) (generation_tokens_total
               self) (cached_tokens_total self) (num_requests_total self)
               (histogram_time_to_first_token self) (histogram_time_per_output_token
               self) (histogram_inter_token_latency_seconds self) v
               (histogram_tokenization_latency self)
               (histogram_detokenization_latency self)).

Definition histogram_tokenization_latency_ : attr t Histogram :=
  Attr histogram_tokenization_latency
       (fun v self =>
          Make (labels self) (prompt_tokens_total self) (generation_tokens_total
               self) (cached_tokens_total self) (num_requests_total self)
               (histogram_time_to_first_token self) (histogram_time_per_output_token
               self) (histogram_inter_token_latency_seconds self)
               (histogram_e2e_request_latency self) v
               (histogram_detokenization_latency self)).

Definition histogram_detokenization_latency_ : attr t Histogram :=
  Attr histogram_detokenization_latency
       (fun v self =>
          Make (labels self) (prompt_tokens_total self) (generation_tokens_total
               self) (cached_tokens_total self) (num_requests_total self)
               (histogram_time_to_first_token self) (histogram_time_per_output_token
               self) (histogram_inter_token_latency_seconds self)
               (histogram_e2e_request_latency self) (histogram_tokenization_latency
               self) v).

Definition time_to_first_token_buckets : list bound :=
  ladder
    [0.1; 0.3; 0.5; 0.7; 0.9; 1; 2; 4; 6; 8; 10; 20; 40; 60; 80; 120; 160]%Q.

Definition time_per_output_token_buckets : list bound :=
  ladder
    [0.002; 0.005; 0.010; 0.020; 0.030; 0.040; 0.050; 0.060; 0.070; 0.080;
     0.090; 0.100; 0.150; 0.200; 0.300; 0.400; 0.600; 0.800; 1.000; 2.000]%Q.

Definition inter_token_latency_buckets : list bound :=
  ladder
    [0.002; 0.004; 0.006; 0.008; 0.010; 0.015; 0.020; 0.025; 0.030; 0.035;
     0.040; 0.050; 0.075; 0.100; 0.150; 0.200; 0.300; 0.400; 0.500; 0.750;
     1.000; 2.000]%Q.

Definition e2e_request_latency_buckets : list bound :=
  ladder
    [0.1; 0.2; 0.4; 0.8; 1; 2; 5; 10; 20; 40; 60; 80; 100; 150; 200; 250;
     300; 350; 500; 1000]%Q.

Definition tokenization_latency_buckets : list bound :=
  ladder
    [0.001; 0.002; 0.005; 0.010; 0.020; 0.030; 0.040; 0.050; 0.075; 0.100;
     0.150; 0.200; 0.300; 0.400; 0.500; 1.000]%Q.

Definition detokenization_latency_buckets : list bound :=
  ladder
    [0.001; 0.002; 0.005; 0.010; 0.020; 0.030; 0.040; 0.050; 0.075; 0.100;
     0.150; 0.200; 0.300; 0.400; 0.500; 1.000]%Q.

(** [__init__(self, labels)]. *)
Definition __init__ (labels : list (string * string)) : outcome t :=
  let labelnames := map fst labels in
  let prompt_tokens_total :=
    Counter_init "sglang:prompt_tokens_total" "Number of prefill tokens processed."
                 labelnames in
  let generation_tokens_total :=
    Counter_init "sglang:generation_tokens_total" "Number of generation tokens processed."
                 labelnames in
  let cached_tokens_total :=
    Counter_init "sglang:cached_tokens_total" "Number of cached prompt tokens."
                 labelnames in
  let num_requests_total :=
    Counter_init "sglang:num_requests_total" "Number of requests processed."
                 labelnames in
  histogram_time_to_first_token ←
    Histogram_init "sglang:time_to_first_token_seconds"
                   "Histogram of time to first token in seconds."
                   labelnames time_to_first_token_buckets;
  histogram_time_per_output_token ←
    Histogram_init "sglang:time_per_output_token_seconds"
                   "Histogram of time per output token in seconds."
                   labelnames time_per_output_token_buckets;
  histogram_inter_token_latency_seconds ←
    Histogram_init "sglang:inter_token_latency_seconds"
                   "Histogram of inter-token latency in seconds."
                   labelnames inter_token_latency_buckets;
  histogram_e2e_request_latency ←
    Histogram_init "sglang:e2e_request_latency_seconds"
                   "Histogram of End-to-end request latency in seconds"
                   labelnames e2e_request_latency_buckets;
  histogram_tokenization_latency ←
    Histogram_init "sglang:tokenization_latency_seconds"
                   "Histogram of tokenization latency in seconds"
                   labelnames tokenization_latency_buckets;
  histogram_detokenization_latency ←
    Histogram_init "sglang:detokenization_latency_seconds"
                   "Histogram of detokenization latency in seconds"
                   labelnames detokenization_latency_buckets;
  mret (Make labels prompt_tokens_total generation_tokens_total cached_tokens_total
             num_requests_total histogram_time_to_first_token
             histogram_time_per_output_token histogram_inter_token_latency_seconds
             histogram_e2e_request_latency histogram_tokenization_latency
             histogram_detokenization_latency).

(** [histogram.labels] applied to [self.labels], then [.observe(data)]. *)
Definition _log_histogram (histogram : attr t Histogram) (data : Qc) : M t unit :=
  self ← get;
  on histogram (Histogram_labels (labelvalues (labels self)) (observe data)).

(** [counter.labels] applied to [self.labels], then [.inc(amount)]. *)
Definition labels_inc (counter : attr t Counter) (amount : Qc) : M t unit :=
  self ← get;
  on counter (Counter_labels (labelvalues (labels self)) (Counter_inc amount)).

Definition observe_one_finished_request
    (prompt_tokens generation_tokens cached_tokens : Z) (e2e_latency : Qc) : M t unit :=
  labels_inc prompt_tokens_total_ (float prompt_tokens);;
  labels_inc generation_tokens_total_ (float generation_tokens);;
  labels_inc cached_tokens_total_ (float cached_tokens);;
  labels_inc num_requests_total_ 1;;
  _log_histogram histogram_e2e_request_latency_ e2e_latency;;
  if (1 <=? generation_tokens)%Z then
    self ← get;
    quotient ← lift (truediv e2e_latency generation_tokens);
    on histogram_time_per_output_token_
       (Histogram_labels (labelvalues (labels self)) (observe quotient))
  else mret tt.

Definition observe_time_to_first_token (value : Qc) : M t unit :=
  self ← get;
  on histogram_time_to_first_token_
     (Histogram_labels (labelvalues (labels self)) (observe value)).

(** The statements of [observe_inter_token_latency] that work on [his],
    the faster version of the library's [observe]. *)
Definition fast_observe (adjusted_interval internval : Qc) (num_new_tokens : Z) :
    M HistogramChild unit :=
  on _sum_ (modify (inc internval));;
  his ← get;
  on _buckets_ (scan adjusted_interval (float num_new_tokens) 0 (_upper_bounds his)).

Definition observe_inter_token_latency (internval : Qc) (num_new_tokens : Z) : M t unit :=
  adjusted_interval ← lift (truediv internval num_new_tokens);
  self ← get;
  on histogram_inter_token_latency_seconds_
     (Histogram_labels (labelvalues (labels self))
        (fast_observe adjusted_interval internval num_new_tokens)).

Definition observe_tokenization_latency (latency : Qc) : M t unit :=
  self ← get;
  on histogram_tokenization_latency_
     (Histogram_labels (labelvalues (labels self)) (observe latency)).

Definition observe_detokenization_latency (latency : Qc) : M t unit :=
  self ← get;
  on histogram_detokenization_latency_
     (Histogram_labels (labelvalues (labels self)) (observe latency)).

(** What a histogram, or a counter, of the collector reads under the
    collector's label tuple. *)
Definition state_of (histogram : attr t Histogram) (self : t) : HistogramChild :=
  Histogram_child (labelvalues (labels self)) (getattr histogram self).

Definition value_of (counter : attr t Counter) (self : t) : Qc :=
  Counter_value (labelvalues (labels self)) (getattr counter self).

(** The counters and the histograms the collector owns, in the order of
    construction. *)
Definition counters (self : t) : list Counter :=
  [prompt_tokens_total self; generation_tokens_total self; cached_tokens_total self;
   num_requests_total self].

Definition histograms (self : t) : list Histogram :=
  [histogram_time_to_first_token self; histogram_time_per_output_token self;
   histogram_inter_token_latency_seconds self; histogram_e2e_request_latency self;
   histogram_tokenization_latency self; histogram_detokenization_latency self].

(** The invariant of the collector: each of its histograms has the
    library's shape. *)
Definition wf (self : t) : Prop := Forall wf_histogram (histograms self).

End TokenizerMetricsCollector.

(** ** Histories of the inter-token-latency histogram *)

Module History.

Import TokenizerMetricsCollector.

(** One observation: a single sample through [_log_histogram], or a batch
    through [observe_inter_token_latency]. *)
Inductive observation : Type :=
| Single (value : Qc)
| Batched (internval : Qc) (num_new_tokens : Z).

Definition call (o : observation) : M t unit :=
  match o with
  | Single value => _log_histogram histogram_inter_token_latency_seconds_ value
  | Batched internval num_new_tokens => observe_inter_token_latency internval num_new_tokens
  end.






(** The same call [n] times in a row. *)
Fixpoint repeat_call {S} (n : nat) (m : M S unit) : M S unit :=
  match n with
  | O => mret tt
  | Datatypes.S k => m;; repeat_call k m
  end.

End History.

(** ** A caller of the request-lifecycle collector *)

Module Serving.

Import TokenizerMetricsCollector.

(** One call of a public method of the collector. *)
Inductive method : Type :=
| ObserveOneFinishedRequest (prompt_tokens generation_tokens cached_tokens : Z) (e2e_latency : Qc)
| ObserveTimeToFirstToken (value : Qc)
| ObserveInterTokenLatency (internval : Qc) (num_new_tokens : Z)
| ObserveTokenizationLatency (latency : Qc)
| ObserveDetokenizationLatency (latency : Qc).

Definition invoke (m : method) : M t unit :=
  match m with
  | ObserveOneFinishedRequest prompt_tokens generation_tokens cached_tokens e2e_latency =>
      observe_one_finished_request prompt_tokens generation_tokens cached_tokens e2e_latency
  | ObserveTimeToFirstToken value => observe_time_to_first_token value
  | ObserveInterTokenLatency internval num_new_tokens =>
      observe_inter_token_latency internval num_new_tokens
  | ObserveTokenizationLatency latency => observe_tokenization_latency latency
  | ObserveDetokenizationLatency latency => observe_detokenization_latency latency
  end.

(** A caller that makes the calls one after the other on the same
    collector and goes on when one of them has raised: the collector keeps
    what the call had written. *)
Fixpoint serve (ms : list method) (self : t) : t :=
  match ms with
  | [] => self
  | m :: rest => serve rest (snd (invoke m self))
  end.

(** What construction fixes: the label dictionary, and the name, the label
    names and the ladder of every metric. *)
Definition same_shape (self self' : t) : Prop :=
  labels self' = labels self ∧
  map (fun c => (c_name c, c_labelnames c)) (counters self')
    = map (fun c => (c_name c, c_labelnames c)) (counters self) ∧
  map (fun h => (h_name h, h_labelnames h, h_upper_bounds h)) (histograms self')
    = map (fun h => (h_name h, h_labelnames h, h_upper_bounds h)) (histograms self).

End Serving.

(** ** The arithmetic with its roundings

    The definitions above compute with exact rationals.  Here the same
    statements are written once more with every arithmetic result passed
    through [rnd], the rounding of a real result to a [float]: the
    conversion [float(n)], the division, and the additions behind
    [_sum.inc] and [_buckets[i].inc].  Comparisons do not round.  With the
    identity for [rnd] these are the definitions above. *)

Module Rounded.

Import TokenizerMetricsCollector.

(** The integers up to 2^53 are [float] values. *)
Definition exact_int_bound : Z := 9007199254740992.

Section Arithmetic.

Variable rnd : Qc -> Qc.

(** [float(n)] for an [int]. *)
Definition float (n : Z) : Qc := rnd (Qc_of_Z n).

(** [x / n] for a [float] [x] and an [int] [n]. *)
Definition truediv (x : Qc) (n : Z) : outcome Qc :=
  if (n =? 0)%Z then Raised ZeroDivisionError else Returned (rnd (x / float n)).

(** [value.inc(amount)]. *)
Definition inc (amount : Qc) (value : Qc) : Qc := rnd (value + amount).

(** The loop over [enumerate(upper_bounds)], from index [i] on. *)
Fixpoint scan (x amount : Qc) (i : nat) (upper_bounds : list bound) : M (list Qc) unit :=
  match upper_bounds with
  | [] => ret tt
  | bound :: rest =>
      if float_le x bound then
        fun buckets =>
          match buckets !! i with
          | Some value => (Returned tt, <[i := inc amount value]> buckets)
          | None => (Raised IndexError, buckets)
          end
      else scan x amount (S i) rest
  end.

(** Modelled from the spec: [Histogram.observe] of the library, which is
    not under src/: it records one sample. *)
Definition observe (amount : Qc) : M HistogramChild unit :=
  on _sum_ (modify (inc amount));;
  self ← get;
  on _buckets_ (scan amount (float 1) 0 (_upper_bounds self)).

Definition _log_histogram (histogram : attr t Histogram) (data : Qc) : M t unit :=
  self ← get;
  on histogram (Histogram_labels (labelvalues (labels self)) (observe data)).

Definition fast_observe (adjusted_interval internval : Qc) (num_new_tokens : Z) :
    M HistogramChild unit :=
  on _sum_ (modify (inc internval));;
  his ← get;
  on _buckets_ (scan adjusted_interval (float num_new_tokens) 0 (_upper_bounds his)).

Definition observe_inter_token_latency (internval : Qc) (num_new_tokens : Z) : M t unit :=
  adjusted_interval ← lift (truediv internval num_new_tokens);
  self ← get;
  on histogram_inter_token_latency_seconds_
     (Histogram_labels (labelvalues (labels self))
        (fast_observe adjusted_interval internval num_new_tokens)).

(** The running sum after [k] single samples of [amount], from [sum]. *)
Fixpoint sum_after (amount : Qc) (k : nat) (sum : Qc) : Qc :=
  match k with
  | O => sum
  | S k' => sum_after amount k' (inc amount sum)
  end.

End Arithmetic.

(** What is assumed of the rounding: the relative error of a result is
    at most [u], and an integer up to 2^53 in magnitude is not rounded.
    Rounding to the nearest [float] is such a rounding with [u] = 2^-53,
    short of overflow and underflow. *)
Record standard (u : Qc) (rnd : Qc -> Qc) : Prop := Standard {
  unit_nonneg : 0 ≤ u;
  rnd_error : ∀ x, Qcabs.Qcabs (rnd x - x) ≤ u * Qcabs.Qcabs x;
  rnd_int : ∀ k : Z, (- exact_int_bound ≤ k ≤ exact_int_bound)%Z →
                     rnd (Qc_of_Z k) = Qc_of_Z k
}.

(** A counter that holds a count to which [n] can still be added without
    rounding. *)
Definition counts_below (n : Z) (value : Qc) : Prop :=
  ∃ k : Z, value = Qc_of_Z k ∧ (0 ≤ k ∧ k + n ≤ exact_int_bound)%Z.

End Rounded.

(** ** A caller of the scheduler collector *)

Module Scheduling.

Import SchedulerMetricsCollector.

(** One call of a public method of the collector; [now] is what
    [time.time()] returns during a [log_stats] call. *)
Inductive method : Type :=
| LogStats (stats : SchedulerStats.t) (now : Qc)
| ObserveRequestQueueLatency (latency : Qc).

Definition invoke (m : method) : M t unit :=
  match m with
  | LogStats stats now => log_stats stats now
  | ObserveRequestQueueLatency latency => observe_request_queue_latency latency
  end.

Fixpoint serve (ms : list method) (self : t) : t :=
  match ms with
  | [] => self
  | m :: rest => serve rest (snd (invoke m self))
  end.

(** The snapshot and the time of the last [log_stats] among the calls. *)
Fixpoint last_logged (ms : list method) : option (SchedulerStats.t * Qc) :=
  match ms with
  | [] => None
  | m :: rest =>
      match last_logged rest with
      | Some logged => Some logged
      | None =>
          match m with
          | LogStats stats now => Some (stats, now)
          | ObserveRequestQueueLatency _ => None
          end
      end
  end.

(** The values a snapshot gives the seven gauges, in the order of the
    gauges. *)
Definition fields (stats : SchedulerStats.t) : list Qc :=
  [float (SchedulerStats.num_running_reqs stats);
   float (SchedulerStats.num_used_tokens stats);
   SchedulerStats.token_usage stats;
   SchedulerStats.gen_throughput stats;
   float (SchedulerStats.num_queue_reqs stats);
   SchedulerStats.cache_hit_rate stats;
   SchedulerStats.spec_accept_length stats].

End Scheduling.

(** ** Gauges across processes *)

Module Multiprocess.

(** Modelled from the spec: what a process keeps of a gauge it has
    written, which the library holds and is not under src/: the value last
    written and the wall-clock time of that write. *)
Record written : Type := Written {
  at_time : Qc;
  wrote : Qc
}.

#[global] Instance written_eq_dec : EqDecision written.
Proof. solve_decision. Defined.

(** Modelled from the spec: the most-recent merge, which the library
    performs and is not under src/.  The process-local states are read in
    some order; of two states the one written later stands, so the merged
    value is the value last written in wall-clock order. *)
Definition later (a b : written) : written :=
  if Qle_bool (at_time b) (at_time a) then a else b.

Definition keep (acc : option written) (s : written) : option written :=
  match acc with
  | None => Some s
  | Some a => Some (later a s)
  end.

Definition most_recent (states : list written) : option written :=
  foldl keep None states.

(** The merged value of a gauge, by the mode it was constructed with (the
    other modes of the library are not modelled). *)
Definition merged (g : Gauge) (states : list written) : option Qc :=
  if String.eqb (g_multiprocess_mode g) "mostrecent"
  then wrote <$> most_recent states
  else None.

End Multiprocess.

(** ** Concrete collectors *)

Module Examples.

Definition labels : list (string * string) := [("model_name", "llama")].

Definition no_histogram : Histogram := MkHistogram "" "" [] [] ∅.

Definition no_counter : Counter := Counter_init "" "" [].

Definition no_gauge : Gauge := Gauge_init "" "" [] "".

(** The request-lifecycle collector as [__init__] leaves it. *)
Definition tokenizer : TokenizerMetricsCollector.t :=
  returned
    (TokenizerMetricsCollector.Make [] no_counter no_counter no_counter no_counter
       no_histogram no_histogram no_histogram no_histogram no_histogram no_histogram)
    (TokenizerMetricsCollector.__init__ labels).

(** The scheduler collector as [__init__] leaves it at time 100. *)
Definition scheduler : SchedulerMetricsCollector.t :=
  returned
    (SchedulerMetricsCollector.Make [] 0 no_gauge no_gauge no_gauge no_gauge no_gauge
       no_gauge no_gauge no_histogram)
    (SchedulerMetricsCollector.__init__ labels (lit 100)).

(** A collector whose inter-token-latency histogram has the buckets
    0.1, 0.5 and 1.0. *)
Definition small : TokenizerMetricsCollector.t :=
  setattr TokenizerMetricsCollector.histogram_inter_token_latency_seconds_
    (returned no_histogram
       (Histogram_init "sglang:inter_token_latency_seconds"
                       "Histogram of inter-token latency in seconds."
                       (map fst labels) (ladder [0.1; 0.5; 1.0]%Q)))
    tokenizer.

(** A rounding that is not the identity, with relative error one eighth:
    a whole number is kept, any other value grows by an eighth of itself. *)
Definition coarse (x : Qc) : Qc :=
  if (Qden (this x) =? 1)%positive then x else x + x * lit (1 # 8).

End Examples.

(** * Properties *)

(** ** Numbers *)

Lemma float_le_Fin (x q : Qc) : float_le x (Fin q) = true ↔ x ≤ q.
Proof. simpl. apply Qle_bool_iff. Qed.

Lemma float_le_Fin_false (x q : Qc) : float_le x (Fin q) = false ↔ q < x.
Proof.
  rewrite <- not_true_iff_false, float_le_Fin. split.
  - apply Qcnot_le_lt.
  - apply Qclt_not_le.
Qed.

Lemma float_nonneg (n : Z) : Qle_bool 0 (float n) = true ↔ (0 ≤ n)%Z.
Proof.
  rewrite Qle_bool_iff. unfold float, Qc_of_Z. simpl.
  rewrite (Zle_Qle 0 n). reflexivity.
Qed.

Lemma float_neg (n : Z) : (n < 0)%Z → Qle_bool 0 (float n) = false.
Proof.
  intros Hn. apply not_true_iff_false. rewrite float_nonneg. lia.
Qed.

Lemma float_nonzero (n : Z) : n ≠ 0%Z → float n ≠ 0.
Proof.
  intros Hn Heq. apply Hn. apply Z2Qc_inj. rewrite Z2Qc_inj_0. exact Heq.
Qed.

Lemma truediv_nonzero (x : Qc) (n : Z) :
  n ≠ 0%Z → truediv x n = Returned (x / float n).
Proof.
  intros Hn. unfold truediv. destruct (Z.eqb_spec n 0); [contradiction | reflexivity].
Qed.

Lemma truediv_zero (x : Qc) : truediv x 0 = Raised ZeroDivisionError.
Proof. reflexivity. Qed.

(** ** The bucket scan *)

(** The scan stops at the first bound that is not below [x], which
    [list_find] names, and touches the counter at that index only. *)
Lemma scan_list_find (x amount : Qc) (upper_bounds : list bound) (i : nat) (buckets : list Qc) :
  scan x amount i upper_bounds buckets =
    match list_find (λ bound, float_le x bound = true) upper_bounds with
    | Some (j, _) =>
        match buckets !! (i + j)%nat with
        | Some value => (Returned tt, <[(i + j)%nat := value + amount]> buckets)
        | None => (Raised IndexError, buckets)
        end
    | None => (Returned tt, buckets)
    end.
Proof.
  revert i. induction upper_bounds as [|bound rest IH]; intros i; simpl; [reflexivity|].
  destruct (float_le x bound) eqn:Hle.
  - rewrite decide_True by reflexivity. simpl. rewrite Nat.add_0_r. reflexivity.
  - rewrite decide_False by discriminate. rewrite IH.
    destruct (list_find _ rest) as [[j b]|]; simpl; [|reflexivity].
    replace (i + S j)%nat with (S (i + j)) by lia. reflexivity.
Qed.

(** ** Reading counts *)

Lemma count_where_insert (p : bound → bool) (upper_bounds : list bound) (buckets : list Qc)
    (i : nat) (bound : bound) (value amount : Qc) :
  upper_bounds !! i = Some bound →
  buckets !! i = Some value →
  count_where p upper_bounds (<[i := value + amount]> buckets) =
    count_where p upper_bounds buckets + (if p bound then amount else 0).
Proof.
  revert buckets i.
  induction upper_bounds as [|b rest IH]; intros [|v buckets] [|i] Hb Hv; simplify_eq/=.
  - destruct (p bound); ring.
  - rewrite (IH _ _ Hb Hv). ring.
Qed.



(** ** Histogram states *)

Import TokenizerMetricsCollector.

Lemma wf_child_metric_init (upper_bounds : list bound) : wf_child (_metric_init upper_bounds).
Proof. unfold wf_child. simpl. apply length_replicate. Qed.

Lemma wf_histogram_child (key : list string) (h : Histogram) :
  wf_histogram h →
  _upper_bounds (Histogram_child key h) = h_upper_bounds h ∧
  wf_child (Histogram_child key h).
Proof.
  intros [_ Hall]. unfold Histogram_child. simpl.
  destruct (h_metrics h !! key) as [his|] eqn:Hkey; simpl.
  - exact (Hall key his Hkey).
  - split; [reflexivity | apply wf_child_metric_init].
Qed.

Lemma Histogram_child_store (key : list string) (his : HistogramChild) (h : Histogram) :
  Histogram_child key (Histogram_store key his h) = his.
Proof. unfold Histogram_child, Histogram_store. simpl. by rewrite lookup_insert_eq. Qed.

Lemma wf_histogram_store (key : list string) (his : HistogramChild) (h : Histogram) :
  wf_histogram h →
  _upper_bounds his = h_upper_bounds h →
  wf_child his →
  wf_histogram (Histogram_store key his h).
Proof.
  intros [Hinf Hall] Hub Hwf. split; [exact Hinf|].
  intros key' his'. unfold Histogram_store. simpl.
  rewrite lookup_insert. case_decide.
  - intros [= <-]. split; assumption.
  - apply Hall.
Qed.

(** Running statements on the state behind [.labels(...)] of a histogram
    attribute: read the state, run, write it back. *)
Lemma on_Histogram_labels {S A} (a : attr S Histogram) (key : list string)
    (m : M HistogramChild A) (self : S) :
  on a (Histogram_labels key m) self =
    (fst (m (Histogram_child key (getattr a self))),
     setattr a (Histogram_store key (snd (m (Histogram_child key (getattr a self))))
                                (getattr a self)) self).
Proof.
  unfold on, Histogram_labels, Histogram_child, Histogram_store, on. simpl.
  destruct (m _) as [r his']. reflexivity.
Qed.

(** The fast path on a state, in closed form. *)
Lemma fast_observe_eq (adjusted_interval internval : Qc) (num_new_tokens : Z)
    (his : HistogramChild) :
  fast_observe adjusted_interval internval num_new_tokens his =
    match list_find (λ bound, float_le adjusted_interval bound = true) (_upper_bounds his) with
    | Some (i, _) =>
        match _buckets his !! i with
        | Some value =>
            (Returned tt,
             MkChild (_sum his + internval) (_upper_bounds his)
                     (<[i := value + float num_new_tokens]> (_buckets his)))
        | None =>
            (Raised IndexError, MkChild (_sum his + internval) (_upper_bounds his) (_buckets his))
        end
    | None =>
        (Returned tt, MkChild (_sum his + internval) (_upper_bounds his) (_buckets his))
    end.
Proof.
  unfold fast_observe, mbind, M_bind, bind, on, modify, get, inc. simpl.
  rewrite scan_list_find. simpl.
  destruct (list_find _ _) as [[i b]|]; [|reflexivity].
  destruct (_buckets his !! i); reflexivity.
Qed.

(** The library's single-sample [observe] on a state, in closed form. *)
Lemma observe_eq (amount : Qc) (his : HistogramChild) :
  observe amount his =
    match list_find (λ bound, float_le amount bound = true) (_upper_bounds his) with
    | Some (i, _) =>
        match _buckets his !! i with
        | Some value =>
            (Returned tt,
             MkChild (_sum his + amount) (_upper_bounds his)
                     (<[i := value + 1]> (_buckets his)))
        | None =>
            (Raised IndexError, MkChild (_sum his + amount) (_upper_bounds his) (_buckets his))
        end
    | None =>
        (Returned tt, MkChild (_sum his + amount) (_upper_bounds his) (_buckets his))
    end.
Proof.
  unfold observe, mbind, M_bind, bind, on, modify, get, inc. simpl.
  rewrite scan_list_find. simpl.
  destruct (list_find _ _) as [[i b]|]; [|reflexivity].
  destruct (_buckets his !! i); reflexivity.
Qed.

(** With [+Inf] among the bounds, the scan always finds a bucket. *)
Lemma first_bucket_exists (x : Qc) (upper_bounds : list bound) :
  Inf ∈ upper_bounds →
  ∃ i bound, list_find (λ bound, float_le x bound = true) upper_bounds = Some (i, bound).
Proof.
  intros Hinf.
  destruct (list_find_elem_of (λ bound, float_le x bound = true) upper_bounds Inf Hinf)
    as [[i bound] Hfind]; [reflexivity|].
  by exists i, bound.
Qed.

(** [observe_inter_token_latency] reduced to the fast path on the state of
    the inter-token-latency histogram. *)
Lemma observe_inter_token_latency_eq (internval : Qc) (num_new_tokens : Z) (self : t) :
  num_new_tokens ≠ 0%Z →
  let his := state_of histogram_inter_token_latency_seconds_ self in
  let run := fast_observe (internval / float num_new_tokens) internval num_new_tokens his in
  observe_inter_token_latency internval num_new_tokens self =
    (fst run,
     setattr histogram_inter_token_latency_seconds_
       (Histogram_store (labelvalues (labels self)) (snd run)
                        (histogram_inter_token_latency_seconds self)) self).
Proof.
  intros Hn. simpl. unfold observe_inter_token_latency.
  unfold mbind, M_bind, bind, lift, get. rewrite (truediv_nonzero _ _ Hn).
  rewrite on_Histogram_labels. reflexivity.
Qed.

Lemma state_of_store (self : t) (his : HistogramChild) :
  state_of histogram_inter_token_latency_seconds_
    (setattr histogram_inter_token_latency_seconds_
       (Histogram_store (labelvalues (labels self)) his
                        (histogram_inter_token_latency_seconds self)) self) = his.
Proof. unfold state_of. simpl. apply Histogram_child_store. Qed.

(** ** [observe_inter_token_latency] *)

Abbreviation inter_token_latency := (state_of histogram_inter_token_latency_seconds_).

Abbreviation store_inter_token_latency self his :=
  (setattr histogram_inter_token_latency_seconds_
     (Histogram_store (labelvalues (labels self)) his
                      (histogram_inter_token_latency_seconds self)) self).

Lemma wf_inter_token_latency (self : t) :
  wf_histogram (histogram_inter_token_latency_seconds self) →
  _upper_bounds (inter_token_latency self)
    = h_upper_bounds (histogram_inter_token_latency_seconds self) ∧
  wf_child (inter_token_latency self).
Proof. intros Hwf. exact (wf_histogram_child _ _ Hwf). Qed.

(** The whole call in closed form, for a histogram of the library's shape. *)
Lemma observe_inter_token_latency_run (self : t) (internval : Qc) (num_new_tokens : Z) :
  num_new_tokens ≠ 0%Z →
  wf_histogram (histogram_inter_token_latency_seconds self) →
  let his := inter_token_latency self in
  ∃ i bound value,
    list_find (λ b, float_le (internval / float num_new_tokens) b = true) (_upper_bounds his)
      = Some (i, bound) ∧
    _buckets his !! i = Some value ∧
    observe_inter_token_latency internval num_new_tokens self =
      (Returned tt,
       store_inter_token_latency self
         (MkChild (_sum his + internval) (_upper_bounds his)
                  (<[i := value + float num_new_tokens]> (_buckets his)))).
Proof.
  intros Hn Hwf his.
  destruct (wf_inter_token_latency self Hwf) as [Hub Hlen]. fold his in Hub, Hlen.
  destruct (first_bucket_exists (internval / float num_new_tokens) (_upper_bounds his))
    as (i & bound & Hfind).
  { rewrite Hub. apply Hwf. }
  pose proof Hfind as (Hi & _)%list_find_Some.
  destruct (lookup_lt_is_Some_2 (_buckets his) i) as [value Hvalue].
  { rewrite Hlen. eapply lookup_lt_Some, Hi. }
  exists i, bound, value. split_and!; try assumption.
  rewrite observe_inter_token_latency_eq by assumption.
  fold his. rewrite fast_observe_eq, Hfind, Hvalue. reflexivity.
Qed.

(** C1.  A call of [observe_inter_token_latency] with at least one new
    token returns normally, adds the raw interval once to the running sum,
    and adds the number of new tokens to the counter of the first bucket
    (in the order of the bound list) whose upper bound is not below
    [internval / num_new_tokens]; every other bucket counter, and the bound
    list, stay as they were. *)
Theorem observe_inter_token_latency_first_bucket
    (self : t) (internval : Qc) (num_new_tokens : Z) :
  (1 ≤ num_new_tokens)%Z →
  wf_histogram (histogram_inter_token_latency_seconds self) →
  let adjusted_interval := internval / float num_new_tokens in
  let his := inter_token_latency self in
  let call := observe_inter_token_latency internval num_new_tokens self in
  let his' := inter_token_latency (snd call) in
  fst call = Returned tt ∧
  _sum his' = _sum his + internval ∧
  _upper_bounds his' = _upper_bounds his ∧
  ∃ i bound value,
    _upper_bounds his !! i = Some bound ∧
    float_le adjusted_interval bound = true ∧
    (∀ j b, (j < i)%nat → _upper_bounds his !! j = Some b →
            float_le adjusted_interval b = false) ∧
    _buckets his !! i = Some value ∧
    _buckets his' !! i = Some (value + float num_new_tokens) ∧
    (∀ j, j ≠ i → _buckets his' !! j = _buckets his !! j) ∧
    length (_buckets his') = length (_buckets his).
Proof.
  intros Hn Hwf adjusted_interval his call his'.
  destruct (observe_inter_token_latency_run self internval num_new_tokens) as
    (i & bound & value & Hfind & Hvalue & Hcall); [lia | assumption |].
  fold his adjusted_interval in Hfind, Hvalue, Hcall. fold call in Hcall.
  apply list_find_Some in Hfind as (Hi & Hle & Hfirst).
  unfold his'. rewrite Hcall. cbn [fst snd]. rewrite state_of_store.
  cbn [_sum _upper_bounds _buckets].
  split_and!; try reflexivity.
  exists i, bound, value. split_and!; try assumption.
  - intros j b Hj Hb. apply not_true_iff_false. exact (Hfirst j b Hb Hj).
  - apply list_lookup_insert_eq. eapply lookup_lt_Some, Hvalue.
  - intros j Hj. apply list_lookup_insert_ne. congruence.
  - apply length_insert.
Qed.

(** C10.  The division of [observe_inter_token_latency] is unguarded: with
    no new token the call raises [ZeroDivisionError] and leaves the whole
    collector as it was; with at least one new token the division returns
    the quotient and the call returns normally. *)
Theorem observe_inter_token_latency_division (self : t) (internval : Qc) :
  observe_inter_token_latency internval 0 self = (Raised ZeroDivisionError, self) ∧
  ∀ num_new_tokens : Z,
    (1 ≤ num_new_tokens)%Z →
    truediv internval num_new_tokens = Returned (internval / float num_new_tokens) ∧
    (wf_histogram (histogram_inter_token_latency_seconds self) →
     fst (observe_inter_token_latency internval num_new_tokens self) = Returned tt).
Proof.
  split; [reflexivity|].
  intros num_new_tokens Hn. split.
  - apply truediv_nonzero. lia.
  - intros Hwf.
    destruct (observe_inter_token_latency_run self internval num_new_tokens) as
      (i & bound & value & _ & _ & Hcall); [lia | assumption |].
    rewrite Hcall. reflexivity.
Qed.

(** ** Construction *)

Lemma _prepare_buckets_closed (source_buckets upper_bounds : list bound) :
  _prepare_buckets source_buckets = Returned upper_bounds → Inf ∈ upper_bounds.
Proof.
  unfold _prepare_buckets.
  destruct (is_sorted source_buckets); simpl; [|discriminate].
  destruct (list.last source_buckets) as [[q|]|] eqn:Hlast.
  - destruct (_ <? _)%nat; [discriminate|]. intros [= <-]. set_solver.
  - destruct (_ <? _)%nat; [discriminate|]. intros [= <-].
    apply last_Some in Hlast as [l' ->]. set_solver.
  - apply last_None in Hlast as ->. simpl. discriminate.
Qed.

Lemma Histogram_init_wf (name documentation : string) (labelnames : list string)
    (buckets : list bound) (h : Histogram) :
  Histogram_init name documentation labelnames buckets = Returned h → wf_histogram h.
Proof.
  unfold Histogram_init.
  destruct (_prepare_buckets buckets) as [upper_bounds|] eqn:Hprep; [|discriminate].
  intros [= <-]. split; simpl.
  - eapply _prepare_buckets_closed, Hprep.
  - intros key his Hkey. by rewrite lookup_empty in Hkey.
Qed.

(** [__init__] succeeds for every label dictionary. *)
Lemma tokenizer_init_returns (labels : list (string * string)) :
  ∃ self, __init__ labels = Returned self ∧ TokenizerMetricsCollector.labels self = labels.
Proof. eexists. split; [vm_compute; reflexivity | reflexivity]. Qed.

Lemma tokenizer_init_wf (labels : list (string * string)) (self : t) :
  __init__ labels = Returned self → wf self.
Proof.
  unfold __init__, mbind, outcome_bind, obind, mret, outcome_ret.
  repeat match goal with
  | |- context [Histogram_init ?n ?d ?l ?b] =>
      let H := fresh "Hinit" in
      destruct (Histogram_init n d l b) eqn:H; [apply Histogram_init_wf in H | discriminate]
  end.
  intros [= <-]. unfold wf, histograms. simpl.
  repeat (constructor; [assumption|]). constructor.
Qed.

Lemma wf_histogram_inter_token_latency (self : t) :
  wf self → wf_histogram (histogram_inter_token_latency_seconds self).
Proof.
  unfold wf, histograms. intros Hwf.
  exact (proj1 (Forall_lookup _ _) Hwf 2%nat _ eq_refl).
Qed.

Lemma tokenizer_example_wf : wf Examples.tokenizer.
Proof. apply (tokenizer_init_wf Examples.labels). vm_compute. reflexivity. Qed.

(** A histogram that has not been observed yet. *)
Lemma wf_histogram_fresh (h : Histogram) :
  list.last (h_upper_bounds h) = Some Inf → h_metrics h = ∅ → wf_histogram h.
Proof.
  intros Hlast Hempty. split.
  - apply last_Some in Hlast as [l' ->]. set_solver.
  - intros key his. rewrite Hempty, lookup_empty. discriminate.
Qed.

Lemma small_example_wf : wf Examples.small.
Proof.
  unfold wf, histograms.
  repeat (constructor; [apply wf_histogram_fresh; vm_compute; reflexivity|]).
  constructor.
Qed.

(** The counts a state reads after one counter has grown. *)
Lemma counts_insert (his : HistogramChild) (sum : Qc) (i : nat) (bound : bound)
    (value amount : Qc) :
  _upper_bounds his !! i = Some bound →
  _buckets his !! i = Some value →
  let his' := MkChild sum (_upper_bounds his) (<[i := value + amount]> (_buckets his)) in
  _count his' = _count his + amount ∧
  finite_count his' = finite_count his + (if is_inf bound then 0 else amount) ∧
  overflow_count his' = overflow_count his + (if is_inf bound then amount else 0).
Proof.
  intros Hbound Hvalue. unfold _count, finite_count, overflow_count. simpl.
  rewrite !(count_where_insert _ _ _ _ _ _ _ Hbound Hvalue).
  destruct (is_inf bound); done.
Qed.


(** Closing a goal between concrete rationals by evaluation. *)
Ltac by_evaluation :=
  vm_compute;
  repeat match goal with
  | |- _ ∧ _ => split
  | |- @eq Qc _ _ => apply Qc_is_canon; reflexivity
  | |- @eq (list _) (_ :: _) (_ :: _) => f_equal
  | |- @eq bound (Fin _) (Fin _) => f_equal
  | |- @eq (option _) (Some _) (Some _) => f_equal
  | |- _ => reflexivity
  end.

(** C2.  When [internval / num_new_tokens] is above every finite bound,
    the call changes no finite bucket, yet the total sample count the
    histogram reads grows by the number of new tokens, which the [+Inf]
    bucket takes.  On a collector with the finite buckets 0.1, 0.5 and 1.0,
    the calls (0.3, 3) and (1.5, 1) leave 3 in bucket 0.1, the sum 1.8, the
    total count 4 and the overflow count 4 - 3 = 1. *)
Theorem observe_inter_token_latency_overflow :
  (∀ (self : t) (internval : Qc) (num_new_tokens : Z),
     (1 ≤ num_new_tokens)%Z →
     wf_histogram (histogram_inter_token_latency_seconds self) →
     let adjusted_interval := internval / float num_new_tokens in
     let his := inter_token_latency self in
     let call := observe_inter_token_latency internval num_new_tokens self in
     let his' := inter_token_latency (snd call) in
     (∀ q, Fin q ∈ _upper_bounds his → q < adjusted_interval) →
     fst call = Returned tt ∧
     (∀ i q, _upper_bounds his !! i = Some (Fin q) → _buckets his' !! i = _buckets his !! i) ∧
     finite_count his' = finite_count his ∧
     _count his' = _count his + float num_new_tokens ∧
     overflow_count his' = overflow_count his + float num_new_tokens ∧
     _sum his' = _sum his + internval) ∧
  (let first := observe_inter_token_latency (lit 0.3) 3 Examples.small in
   let second := observe_inter_token_latency (lit 1.5) 1 (snd first) in
   let his := inter_token_latency (snd second) in
   fst first = Returned tt ∧
   _buckets (inter_token_latency (snd first)) = [lit 3; lit 0; lit 0; lit 0] ∧
   _sum (inter_token_latency (snd first)) = lit 0.3 ∧
   fst second = Returned tt ∧
   _upper_bounds his = [Fin (lit 0.1); Fin (lit 0.5); Fin (lit 1.0); Inf] ∧
   _buckets his = [lit 3; lit 0; lit 0; lit 1] ∧
   _sum his = lit 1.8 ∧
   _count his = lit 4 ∧
   finite_count his = lit 3 ∧
   overflow_count his = lit 1 ∧
   _count his - finite_count his = lit 1).
Proof.
  split.
  - intros self internval num_new_tokens Hn Hwf adjusted_interval his call his' Habove.
    destruct (observe_inter_token_latency_run self internval num_new_tokens) as
      (i & bound & value & Hfind & Hvalue & Hcall); [lia | assumption |].
    fold his adjusted_interval in Hfind, Hvalue, Hcall. fold call in Hcall.
    apply list_find_Some in Hfind as (Hi & Hle & _).
    assert (bound = Inf) as ->.
    { destruct bound as [q|]; [|reflexivity].
      apply float_le_Fin in Hle. apply list_elem_of_lookup_2, Habove in Hi.
      by apply Qclt_not_le in Hi. }
    destruct (counts_insert his (_sum his + internval) i Inf value (float num_new_tokens)
                Hi Hvalue) as (Hcount & Hfinite & Hoverflow).
    unfold his'. rewrite Hcall. cbn [fst snd]. rewrite state_of_store.
    split_and!; try done.
    + intros j q Hj. cbn [_buckets]. apply list_lookup_insert_ne. congruence.
    + rewrite Hfinite. simpl. ring.
  - by_evaluation.
Qed.

(** ** Single samples and histories *)

Import History.


Lemma wf_store_inter_token_latency (self : t) (his : HistogramChild) :
  wf_histogram (histogram_inter_token_latency_seconds self) →
  _upper_bounds his = _upper_bounds (inter_token_latency self) →
  wf_child his →
  wf_histogram (histogram_inter_token_latency_seconds (store_inter_token_latency self his)).
Proof.
  intros Hwf Hub Hlen. simpl. apply wf_histogram_store; try assumption.
  rewrite Hub. apply (wf_inter_token_latency self Hwf).
Qed.




(** ** The fast path against repeated single samples *)

Lemma store_store_inter_token_latency (self : t) (his his' : HistogramChild) :
  store_inter_token_latency (store_inter_token_latency self his) his'
  = store_inter_token_latency self his'.
Proof.
  simpl. unfold Histogram_store. simpl. by rewrite insert_insert_eq.
Qed.

Lemma MkChild_eq (sum sum' : Qc) (upper_bounds : list bound) (buckets buckets' : list Qc) :
  sum = sum' → buckets = buckets' →
  MkChild sum upper_bounds buckets = MkChild sum' upper_bounds buckets'.
Proof. by intros -> ->. Qed.

(** ** [observe_one_finished_request] *)

(** An increment of one of the collector's counters, in closed form: the
    value is created on the first use also when the increment is refused. *)
Lemma labels_inc_run (counter : attr t Counter) (amount : Qc) (self : t) :
  labels_inc counter amount self =
    if Qle_bool 0 amount then
      (Returned tt,
       setattr counter
         (Counter_store (labelvalues (labels self)) (value_of counter self + amount)
                        (getattr counter self)) self)
    else
      (Raised ValueError,
       setattr counter
         (Counter_store (labelvalues (labels self)) (value_of counter self)
                        (getattr counter self)) self).
Proof.
  unfold labels_inc, mbind, M_bind, bind, get, Counter_labels, Counter_inc, on, value_of,
    Counter_value, Counter_store.
  cbn [getattr setattr c_metrics_ child].
  destruct (Qle_bool 0 amount); reflexivity.
Qed.

Lemma Counter_value_store (key : list string) (value : Qc) (c : Counter) :
  Counter_value key (Counter_store key value c) = value.
Proof. unfold Counter_value, Counter_store. simpl. by rewrite lookup_insert_eq. Qed.

(** Reading and writing the attributes of a collector given by its fields. *)
Ltac attrs :=
  unfold value_of, state_of;
  cbn [getattr setattr labels
       prompt_tokens_total generation_tokens_total cached_tokens_total num_requests_total
       histogram_time_to_first_token histogram_time_per_output_token
       histogram_inter_token_latency_seconds histogram_e2e_request_latency
       histogram_tokenization_latency histogram_detokenization_latency
       prompt_tokens_total_ generation_tokens_total_ cached_tokens_total_ num_requests_total_
       histogram_time_to_first_token_ histogram_time_per_output_token_
       histogram_inter_token_latency_seconds_ histogram_e2e_request_latency_
       histogram_tokenization_latency_ histogram_detokenization_latency_ fst snd].

Lemma Qle_bool_0_1 : Qle_bool 0 (1 : Qc) = true.
Proof. reflexivity. Qed.

(** One sample on a state of the library's shape. *)
Lemma observe_run (amount : Qc) (his : HistogramChild) :
  Inf ∈ _upper_bounds his →
  wf_child his →
  let his' := snd (observe amount his) in
  fst (observe amount his) = Returned tt ∧
  _upper_bounds his' = _upper_bounds his ∧
  wf_child his' ∧
  _sum his' = _sum his + amount ∧
  _count his' = _count his + 1.
Proof.
  intros Hinf Hlen.
  destruct (first_bucket_exists amount (_upper_bounds his) Hinf) as (i & bound & Hfind).
  pose proof Hfind as (Hi & _)%list_find_Some.
  destruct (lookup_lt_is_Some_2 (_buckets his) i) as [value Hvalue].
  { rewrite Hlen. eapply lookup_lt_Some, Hi. }
  rewrite observe_eq, Hfind, Hvalue. cbn [fst snd _sum _upper_bounds].
  split_and!; try reflexivity.
  - unfold wf_child. simpl. by rewrite length_insert.
  - apply (counts_insert his _ i bound value 1 Hi Hvalue).
Qed.

Lemma _log_histogram_eq (histogram : attr t Histogram) (data : Qc) (self : t) :
  _log_histogram histogram data self =
    (fst (observe data (state_of histogram self)),
     setattr histogram
       (Histogram_observe (labelvalues (labels self)) data (getattr histogram self)) self).
Proof.
  unfold _log_histogram, mbind, M_bind, bind, get. apply on_Histogram_labels.
Qed.

Lemma Histogram_observe_returns (key : list string) (amount : Qc) (h : Histogram) :
  wf_histogram h → fst (observe amount (Histogram_child key h)) = Returned tt.
Proof.
  intros Hwf. destruct (wf_histogram_child key h Hwf) as [Hub Hlen].
  apply observe_run; [|assumption]. rewrite Hub. apply Hwf.
Qed.

(** An observation is visible in the histogram: its count has grown. *)
Lemma Histogram_observe_changes (key : list string) (amount : Qc) (h : Histogram) :
  wf_histogram h → Histogram_observe key amount h ≠ h.
Proof.
  intros Hwf Heq. destruct (wf_histogram_child key h Hwf) as [Hub Hlen].
  destruct (observe_run amount (Histogram_child key h)) as (_ & _ & _ & _ & Hcount);
    [rewrite Hub; apply Hwf | assumption |].
  apply (f_equal (Histogram_child key)) in Heq.
  unfold Histogram_observe in Heq. rewrite Histogram_child_store in Heq.
  rewrite Heq in Hcount.
  apply (f_equal (λ x, x - _count (Histogram_child key h))) in Hcount.
  ring_simplify in Hcount. discriminate.
Qed.

(** C5.  A call of [observe_one_finished_request] with non-negative token
    counts returns normally, adds the three token counts to their
    counters and 1 to the request counter, and records the latency in the
    end-to-end histogram.  Without generated tokens the time-per-output-token
    histogram is left as it was, and no error is raised; the quotient
    [e2e_latency / generation_tokens] is recorded there exactly when there
    is at least one generated token. *)
Theorem observe_one_finished_request_derived
    (self : t) (prompt_tokens generation_tokens cached_tokens : Z) (e2e_latency : Qc) :
  (0 ≤ prompt_tokens)%Z →
  (0 ≤ generation_tokens)%Z →
  (0 ≤ cached_tokens)%Z →
  wf_histogram (histogram_e2e_request_latency self) →
  wf_histogram (histogram_time_per_output_token self) →
  let call :=
    observe_one_finished_request prompt_tokens generation_tokens cached_tokens
                                 e2e_latency self in
  let self' := snd call in
  let key := labelvalues (labels self) in
  fst call = Returned tt ∧
  value_of prompt_tokens_total_ self'
    = value_of prompt_tokens_total_ self + float prompt_tokens ∧
  value_of generation_tokens_total_ self'
    = value_of generation_tokens_total_ self + float generation_tokens ∧
  value_of cached_tokens_total_ self'
    = value_of cached_tokens_total_ self + float cached_tokens ∧
  value_of num_requests_total_ self' = value_of num_requests_total_ self + 1 ∧
  histogram_e2e_request_latency self'
    = Histogram_observe key e2e_latency (histogram_e2e_request_latency self) ∧
  (generation_tokens = 0%Z →
   value_of generation_tokens_total_ self' = value_of generation_tokens_total_ self ∧
   histogram_time_per_output_token self' = histogram_time_per_output_token self) ∧
  ((1 ≤ generation_tokens)%Z →
   histogram_time_per_output_token self'
     = Histogram_observe key (e2e_latency / float generation_tokens)
                         (histogram_time_per_output_token self)) ∧
  ((1 ≤ generation_tokens)%Z ↔
   histogram_time_per_output_token self' ≠ histogram_time_per_output_token self).
Proof.
  intros Hp Hg Hc Hwf_e2e Hwf_tpot.
  destruct self as [labels pt gt ct nr h1 h2 h3 h4 h5 h6].
  cbn [histogram_e2e_request_latency histogram_time_per_output_token] in Hwf_e2e, Hwf_tpot.
  unfold observe_one_finished_request, mbind, M_bind, bind.
  rewrite labels_inc_run, (proj2 (float_nonneg prompt_tokens) Hp). attrs.
  rewrite labels_inc_run, (proj2 (float_nonneg generation_tokens) Hg). attrs.
  rewrite labels_inc_run, (proj2 (float_nonneg cached_tokens) Hc). attrs.
  rewrite labels_inc_run, Qle_bool_0_1. attrs.
  rewrite _log_histogram_eq. attrs.
  rewrite (Histogram_observe_returns _ _ _ Hwf_e2e).
  destruct (Z.leb_spec 1 generation_tokens) as [Hone|Hnone].
  - unfold get, lift. rewrite truediv_nonzero by lia.
    rewrite on_Histogram_labels. attrs.
    rewrite (Histogram_observe_returns _ _ _ Hwf_tpot).
    fold (Histogram_observe (labelvalues labels) (e2e_latency / float generation_tokens) h2).
    rewrite !Counter_value_store.
    split_and!; try reflexivity.
    + intros ->. lia.
    + split; [intros _ | done]. by apply Histogram_observe_changes.
  - unfold mret, M_ret, ret. attrs. rewrite !Counter_value_store.
    split_and!; try reflexivity.
    + intros ->. split; [|reflexivity]. unfold float. rewrite Z2Qc_inj_0. ring.
    + intros ?. lia.
    + split; [lia | congruence].
Qed.

(** C6, as the code has it.  A negative token count is not caught: the
    increment that meets it raises [ValueError] to the caller.  The counters
    incremented before it keep their increments; the refused counter, the
    counters after it, the request counter and every histogram read as
    before the call. *)
Theorem observe_one_finished_request_negative
    (self : t) (prompt_tokens generation_tokens cached_tokens : Z) (e2e_latency : Qc) :
  (prompt_tokens < 0 ∨ generation_tokens < 0 ∨ cached_tokens < 0)%Z →
  let call :=
    observe_one_finished_request prompt_tokens generation_tokens cached_tokens
                                 e2e_latency self in
  let self' := snd call in
  fst call = Raised ValueError ∧
  value_of prompt_tokens_total_ self'
    = value_of prompt_tokens_total_ self
      + (if (0 <=? prompt_tokens)%Z then float prompt_tokens else 0) ∧
  value_of generation_tokens_total_ self'
    = value_of generation_tokens_total_ self
      + (if ((0 <=? prompt_tokens) && (0 <=? generation_tokens))%Z
         then float generation_tokens else 0) ∧
  value_of cached_tokens_total_ self' = value_of cached_tokens_total_ self ∧
  value_of num_requests_total_ self' = value_of num_requests_total_ self ∧
  histograms self' = histograms self.
Proof.
  intros Hneg.
  destruct self as [labels pt gt ct nr h1 h2 h3 h4 h5 h6].
  unfold observe_one_finished_request, mbind, M_bind, bind.
  rewrite labels_inc_run.
  destruct (Z.leb_spec 0 prompt_tokens) as [Hp|Hp].
  2:{ rewrite (float_neg _ Hp). attrs. rewrite ?Counter_value_store.
      split_and!; try reflexivity; cbn [andb]; ring. }
  rewrite (proj2 (float_nonneg _) Hp). attrs. rewrite labels_inc_run.
  destruct (Z.leb_spec 0 generation_tokens) as [Hg|Hg].
  2:{ rewrite (float_neg _ Hg). attrs. rewrite ?Counter_value_store.
      split_and!; try reflexivity; cbn [andb]; ring. }
  rewrite (proj2 (float_nonneg _) Hg). attrs. rewrite labels_inc_run.
  rewrite float_neg by lia. attrs. rewrite ?Counter_value_store.
  split_and!; reflexivity.
Qed.

(** ** The invariant is kept *)

Lemma wf_histogram_observe (key : list string) (amount : Qc) (h : Histogram) :
  wf_histogram h → wf_histogram (Histogram_observe key amount h).
Proof.
  intros Hwf. destruct (wf_histogram_child key h Hwf) as [Hub Hlen].
  destruct (observe_run amount (Histogram_child key h)) as (_ & Hub' & Hlen' & _);
    [rewrite Hub; apply Hwf | assumption |].
  apply wf_histogram_store; [assumption | by rewrite Hub' | assumption].
Qed.

Lemma wf_fields (labels : list (string * string)) (pt gt ct nr : Counter)
    (h1 h2 h3 h4 h5 h6 : Histogram) :
  wf (Make labels pt gt ct nr h1 h2 h3 h4 h5 h6) ↔
  wf_histogram h1 ∧ wf_histogram h2 ∧ wf_histogram h3 ∧
  wf_histogram h4 ∧ wf_histogram h5 ∧ wf_histogram h6.
Proof.
  unfold wf, histograms. cbn. split.
  - intros Hall. repeat (apply Forall_cons_1 in Hall as [? Hall]). tauto.
  - intros (? & ? & ? & ? & ? & ?). repeat (constructor; [assumption|]). constructor.
Qed.

(** Every state a call of [observe_inter_token_latency] leaves, whether it
    returned or raised, satisfies the invariant again. *)
Lemma observe_inter_token_latency_keeps_wf (self : t) (internval : Qc) (num_new_tokens : Z) :
  wf self → wf (snd (observe_inter_token_latency internval num_new_tokens self)).
Proof.
  intros Hwf. destruct (decide (num_new_tokens = 0%Z)) as [->|Hn]; [exact Hwf|].
  pose proof (wf_histogram_inter_token_latency self Hwf) as Hitl.
  destruct (observe_inter_token_latency_run self internval num_new_tokens Hn Hitl)
    as (i & bound & value & _ & _ & Hcall).
  rewrite Hcall. cbn [snd].
  pose proof (wf_store_inter_token_latency self
                (MkChild (_sum (inter_token_latency self) + internval)
                         (_upper_bounds (inter_token_latency self))
                         (<[i := value + float num_new_tokens]>
                            (_buckets (inter_token_latency self))))
                Hitl eq_refl) as Hstored.
  destruct (wf_inter_token_latency self Hitl) as [_ Hlen].
  specialize (Hstored ltac:(unfold wf_child in *; cbn; by rewrite length_insert)).
  destruct self as [labels pt gt ct nr h1 h2 h3 h4 h5 h6].
  apply wf_fields in Hwf. apply wf_fields. cbn in Hstored. tauto.
Qed.

(** So does every state a call of [observe_one_finished_request] leaves. *)
Lemma observe_one_finished_request_keeps_wf
    (self : t) (prompt_tokens generation_tokens cached_tokens : Z) (e2e_latency : Qc) :
  wf self →
  wf (snd (observe_one_finished_request prompt_tokens generation_tokens cached_tokens
                                        e2e_latency self)).
Proof.
  destruct self as [labels pt gt ct nr h1 h2 h3 h4 h5 h6].
  intros (H1 & H2 & H3 & H4 & H5 & H6)%wf_fields.
  unfold observe_one_finished_request, mbind, M_bind, bind.
  rewrite labels_inc_run.
  destruct (Qle_bool 0 (float prompt_tokens)); attrs; [|by apply wf_fields].
  rewrite labels_inc_run.
  destruct (Qle_bool 0 (float generation_tokens)); attrs; [|by apply wf_fields].
  rewrite labels_inc_run.
  destruct (Qle_bool 0 (float cached_tokens)); attrs; [|by apply wf_fields].
  rewrite labels_inc_run, Qle_bool_0_1. attrs.
  rewrite _log_histogram_eq. attrs.
  rewrite (Histogram_observe_returns _ _ _ H4).
  pose proof (wf_histogram_observe (labelvalues labels) e2e_latency h4 H4) as H4'.
  destruct (1 <=? generation_tokens)%Z.
  - unfold get, lift, truediv. destruct (generation_tokens =? 0)%Z; [by apply wf_fields|].
    rewrite on_Histogram_labels. attrs. apply wf_fields.
    split_and!; try assumption. by apply wf_histogram_observe.
  - by apply wf_fields.
Qed.

(** ** [log_stats] *)

Module SchedulerFacts.

Import SchedulerMetricsCollector.

Lemma _log_gauge_run (gauge : attr t Gauge) (data : Qc) (self : t) :
  _log_gauge gauge data self =
    (Returned tt,
     setattr gauge (Gauge_store (labelvalues (labels self)) data (getattr gauge self)) self).
Proof. reflexivity. Qed.

(** C7.  [log_stats] returns normally and leaves each of the seven gauges
    holding, under the collector's label tuple, the field of the snapshot
    that belongs to it; the states of the gauges under other label tuples,
    the label dictionary and the queue-latency histogram stay as they
    were, and the recorded last-log time is the time of the call. *)
Theorem log_stats_sets_gauges (self : t) (stats : SchedulerStats.t) (now : Qc) :
  let call := log_stats stats now self in
  let self' := snd call in
  let key := labelvalues (labels self) in
  fst call = Returned tt ∧
  map (λ g, g_metrics g !! key) (gauges self') =
    [Some (float (SchedulerStats.num_running_reqs stats));
     Some (float (SchedulerStats.num_used_tokens stats));
     Some (SchedulerStats.token_usage stats);
     Some (SchedulerStats.gen_throughput stats);
     Some (float (SchedulerStats.num_queue_reqs stats));
     Some (SchedulerStats.cache_hit_rate stats);
     Some (SchedulerStats.spec_accept_length stats)] ∧
  (∀ key', key' ≠ key →
     map (λ g, g_metrics g !! key') (gauges self')
     = map (λ g, g_metrics g !! key') (gauges self)) ∧
  map g_name (gauges self') = map g_name (gauges self) ∧
  map g_multiprocess_mode (gauges self') = map g_multiprocess_mode (gauges self) ∧
  last_log_time self' = now ∧
  labels self' = labels self ∧
  histogram_request_queue_latency self' = histogram_request_queue_latency self.
Proof.
  destruct self as [labels time g1 g2 g3 g4 g5 g6 g7 h].
  unfold log_stats, mbind, M_bind, bind. rewrite !_log_gauge_run.
  cbn -[float]. split_and!; try reflexivity.
  - by rewrite !lookup_insert_eq.
  - intros key' Hkey. by rewrite !lookup_insert_ne.
Qed.

(** A snapshot logged at time 250 on a fresh collector. *)
Example log_stats_example :
  let stats := SchedulerStats.Make 3 1024 (lit 0.25) (lit 812.5) 7 (lit 0.5) (lit 2.5) in
  let self' := snd (log_stats stats (lit 250) Examples.scheduler) in
  map (λ g, g_metrics g !! ["llama"]) (gauges self')
    = [Some (lit 3); Some (lit 1024); Some (lit 0.25); Some (lit 812.5);
       Some (lit 7); Some (lit 0.5); Some (lit 2.5)] ∧
  last_log_time Examples.scheduler = lit 100 ∧
  last_log_time self' = lit 250.
Proof.
  by_evaluation.
Qed.

End SchedulerFacts.

(** ** Construction of the request-lifecycle collector *)

(** C8 fails as stated: the collector owns six histograms, not five. *)
Lemma tokenizer_histograms_not_five :
  __init__ Examples.labels = Returned Examples.tokenizer ∧
  length (histograms Examples.tokenizer) ≠ 5%nat.
Proof. split; [vm_compute; reflexivity | simpl; lia]. Qed.

(** C8, as the code has it.  For every label dictionary [__init__]
    succeeds and the collector owns exactly four counters and exactly six
    histograms, with the names below, none observed yet.  Each histogram
    has the ladder given at its construction, strictly ascending and closed
    by [+Inf]; the finest bucket of every ladder is below one second, and
    the end-to-end ladder reaches 1000 s. *)
Theorem tokenizer_owns_four_counters_six_histograms (labels : list (string * string)) :
  ∃ self,
    __init__ labels = Returned self ∧
    TokenizerMetricsCollector.labels self = labels ∧
    length (counters self) = 4%nat ∧
    map c_name (counters self) =
      ["sglang:prompt_tokens_total"; "sglang:generation_tokens_total";
       "sglang:cached_tokens_total"; "sglang:num_requests_total"] ∧
    Forall (λ c, c_metrics c = ∅ ∧ c_labelnames c = map fst labels) (counters self) ∧
    length (histograms self) = 6%nat ∧
    map h_name (histograms self) =
      ["sglang:time_to_first_token_seconds"; "sglang:time_per_output_token_seconds";
       "sglang:inter_token_latency_seconds"; "sglang:e2e_request_latency_seconds";
       "sglang:tokenization_latency_seconds"; "sglang:detokenization_latency_seconds"] ∧
    Forall (λ h, h_metrics h = ∅ ∧ h_labelnames h = map fst labels) (histograms self) ∧
    map h_upper_bounds (histograms self) =
      map (λ buckets, buckets ++ [Inf])
          [time_to_first_token_buckets; time_per_output_token_buckets;
           inter_token_latency_buckets; e2e_request_latency_buckets;
           tokenization_latency_buckets; detokenization_latency_buckets] ∧
    Forall (λ h, ascending (h_upper_bounds h) = true ∧ sub_second (h_upper_bounds h) = true)
           (histograms self) ∧
    list.last e2e_request_latency_buckets = Some (Fin (lit 1000)).
Proof.
  eexists. split; [vm_compute; reflexivity|].
  split_and!; try reflexivity.
  - repeat (constructor; [split; reflexivity|]). constructor.
  - repeat (constructor; [split; reflexivity|]). constructor.
  - repeat (constructor; [split; vm_compute; reflexivity|]). constructor.
Qed.

(** ** [observe_one_finished_request] with a negative count *)

(** C6 fails as stated: with 5 prompt tokens and -1 generated tokens the
    call raises [ValueError] to its caller, and the prompt counter, 0
    before the call, holds 5 after it. *)
Lemma observe_one_finished_request_raises_after_update :
  fst (observe_one_finished_request 5 (-1) 0 (lit 1) Examples.tokenizer) = Raised ValueError ∧
  value_of prompt_tokens_total_ Examples.tokenizer = lit 0 ∧
  value_of prompt_tokens_total_
    (snd (observe_one_finished_request 5 (-1) 0 (lit 1) Examples.tokenizer)) = lit 5.
Proof. by_evaluation. Qed.

(** ** The most-recent merge *)

Import Multiprocess.

Lemma later_latest_l (latest s : written) :
  s = latest ∨ at_time s < at_time latest → later latest s = latest.
Proof.
  intros Hs. unfold later.
  destruct (Qle_bool (at_time s) (at_time latest)) eqn:Hle; [reflexivity|].
  apply not_true_iff_false in Hle. exfalso. apply Hle. apply Qle_bool_iff.
  destruct Hs as [->|Hlt]; [apply Qle_refl | apply Qclt_le_weak, Hlt].
Qed.

Lemma later_latest_r (a latest : written) :
  a = latest ∨ at_time a < at_time latest → later a latest = latest.
Proof.
  intros [->|Hlt]; [apply later_latest_l; by left|].
  unfold later. destruct (Qle_bool (at_time latest) (at_time a)) eqn:Hle; [|reflexivity].
  apply Qle_bool_iff in Hle. by apply Qclt_not_le in Hlt.
Qed.

Lemma later_choice (a b : written) : later a b = a ∨ later a b = b.
Proof. unfold later. destruct (Qle_bool _ _); auto. Qed.

(** Once the latest write has been read, no other state replaces it. *)
Lemma foldl_keep_latest (latest : written) (states : list written) :
  (∀ s, s ∈ states → s = latest ∨ at_time s < at_time latest) →
  foldl keep (Some latest) states = Some latest.
Proof.
  induction states as [|s rest IH]; intros Hall; simpl; [reflexivity|].
  rewrite later_latest_l by (apply Hall, list_elem_of_here).
  apply IH. intros s' Hs'. apply Hall, list_elem_of_further, Hs'.
Qed.

(** Whatever has been read before, the latest write stands in the end. *)
Lemma foldl_keep_reaches_latest (latest : written) (states : list written) :
  latest ∈ states →
  (∀ s, s ∈ states → s = latest ∨ at_time s < at_time latest) →
  ∀ acc,
    (∀ a, acc = Some a → a = latest ∨ at_time a < at_time latest) →
    foldl keep acc states = Some latest.
Proof.
  induction states as [|s rest IH]; intros Hin Hall acc Hacc;
    [by apply elem_of_nil in Hin|].
  simpl. destruct (decide (s = latest)) as [->|Hne].
  - replace (keep acc latest) with (Some latest).
    + apply foldl_keep_latest. intros s' Hs'. apply Hall, list_elem_of_further, Hs'.
    + destruct acc as [a|]; simpl; [|reflexivity].
      by rewrite later_latest_r by (by apply Hacc).
  - apply IH.
    + apply elem_of_cons in Hin as [->|Hin]; [contradiction | exact Hin].
    + intros s' Hs'. apply Hall, list_elem_of_further, Hs'.
    + intros a Ha. destruct acc as [a0|]; simpl in Ha; injection Ha as <-.
      * destruct (later_choice a0 s) as [-> | ->];
          [by apply Hacc | apply Hall, list_elem_of_here].
      * apply Hall, list_elem_of_here.
Qed.

Lemma most_recent_latest (latest : written) (states : list written) :
  latest ∈ states →
  (∀ s, s ∈ states → s ≠ latest → at_time s < at_time latest) →
  most_recent states = Some latest.
Proof.
  intros Hin Hall. apply foldl_keep_reaches_latest; [assumption | | discriminate].
  intros s Hs. destruct (decide (s = latest)); [by left | right; by apply Hall].
Qed.

(** C9.  Each of the seven gauges of the scheduler collector is constructed
    with the most-recent mode, and under that merge the value read is the
    value of the state written last in wall-clock order, in whatever order
    the process-local states are read: with 5 written at [t1] and 9 at a
    later [t2], both orders of reading give 9. *)
Theorem gauges_merge_most_recent (labels : list (string * string)) (now : Qc) :
  ∃ self,
    SchedulerMetricsCollector.__init__ labels now = Returned self ∧
    length (SchedulerMetricsCollector.gauges self) = 7%nat ∧
    ∀ g, g ∈ SchedulerMetricsCollector.gauges self →
      g_multiprocess_mode g = "mostrecent" ∧
      (∀ (states states' : list written) (latest : written),
         states ≡ₚ states' →
         latest ∈ states →
         (∀ s, s ∈ states → s ≠ latest → at_time s < at_time latest) →
         merged g states = Some (wrote latest) ∧ merged g states' = Some (wrote latest)) ∧
      (∀ t1 t2 : Qc,
         t1 < t2 →
         merged g [Written t1 (lit 5); Written t2 (lit 9)] = Some (lit 9) ∧
         merged g [Written t2 (lit 9); Written t1 (lit 5)] = Some (lit 9)).
Proof.
  eexists. split; [vm_compute; reflexivity|]. split; [reflexivity|].
  intros g Hg.
  assert (Hmode : g_multiprocess_mode g = "mostrecent").
  { unfold SchedulerMetricsCollector.gauges in Hg. cbn [SchedulerMetricsCollector.num_running_reqs
      SchedulerMetricsCollector.num_used_tokens SchedulerMetricsCollector.token_usage
      SchedulerMetricsCollector.gen_throughput SchedulerMetricsCollector.num_queue_reqs
      SchedulerMetricsCollector.cache_hit_rate SchedulerMetricsCollector.spec_accept_length] in Hg.
    repeat (apply elem_of_cons in Hg as [->|Hg]; [reflexivity|]).
    by apply elem_of_nil in Hg. }
  assert (Hmerge : ∀ (states : list written) (latest : written),
            latest ∈ states →
            (∀ s, s ∈ states → s ≠ latest → at_time s < at_time latest) →
            merged g states = Some (wrote latest)).
  { intros states latest Hin Hall. unfold merged. rewrite Hmode. cbn [String.eqb].
    change ("mostrecent" =? "mostrecent")%string with true. cbv iota.
    by rewrite (most_recent_latest latest states Hin Hall). }
  split_and!; [exact Hmode | |].
  - intros states states' latest Hperm Hin Hall. split; [by apply Hmerge|].
    apply Hmerge; [by rewrite <- Hperm|].
    intros s Hs. apply Hall. by rewrite Hperm.
  - intros t1 t2 Hlt.
    split; apply (Hmerge _ (Written t2 (lit 9))).
    + apply list_elem_of_further, list_elem_of_here.
    + intros s Hs Hne. apply elem_of_cons in Hs as [->|Hs]; [exact Hlt|].
      apply list_elem_of_singleton in Hs. contradiction.
    + apply list_elem_of_here.
    + intros s Hs Hne. apply elem_of_cons in Hs as [->|Hs]; [contradiction|].
      apply list_elem_of_singleton in Hs as ->. exact Hlt.
Qed.

(** ** The theorems at concrete calls *)

Lemma small_inter_token_latency_wf :
  wf_histogram (histogram_inter_token_latency_seconds Examples.small).
Proof. exact (wf_histogram_inter_token_latency _ small_example_wf). Qed.

Lemma tokenizer_e2e_wf :
  wf_histogram (histogram_e2e_request_latency Examples.tokenizer).
Proof. exact (proj1 (Forall_lookup _ _) tokenizer_example_wf 3%nat _ eq_refl). Qed.

Lemma tokenizer_time_per_output_token_wf :
  wf_histogram (histogram_time_per_output_token Examples.tokenizer).
Proof. exact (proj1 (Forall_lookup _ _) tokenizer_example_wf 1%nat _ eq_refl). Qed.

Lemma small_bounds_below (q : Qc) :
  Fin q ∈ _upper_bounds (inter_token_latency Examples.small) → q < lit 1.5 / float 1.
Proof.
  intros Hq. vm_compute in Hq.
  repeat (apply elem_of_cons in Hq as [Hq|Hq]; [injection Hq as ->; reflexivity|]).
  apply elem_of_cons in Hq as [Hq|Hq]; [discriminate|]. by apply elem_of_nil in Hq.
Qed.

(** C1 at the call (0.3, 3) on the collector with buckets 0.1, 0.5, 1.0. *)
Lemma observe_inter_token_latency_first_bucket_witness :
  (1 ≤ 3)%Z ∧
  wf_histogram (histogram_inter_token_latency_seconds Examples.small) ∧
  fst (observe_inter_token_latency (lit 0.3) 3 Examples.small) = Returned tt ∧
  _sum (inter_token_latency (snd (observe_inter_token_latency (lit 0.3) 3 Examples.small)))
    = _sum (inter_token_latency Examples.small) + lit 0.3.
Proof.
  assert (Hn : (1 ≤ 3)%Z) by lia.
  pose proof small_inter_token_latency_wf as Hwf.
  pose proof (observe_inter_token_latency_first_bucket Examples.small (lit 0.3) 3 Hn Hwf)
    as (Hret & Hsum & _).
  split_and!; assumption.
Defined.

(** C2 at the call (1.5, 1) on the collector with buckets 0.1, 0.5, 1.0. *)
Lemma observe_inter_token_latency_overflow_witness :
  (1 ≤ 1)%Z ∧
  wf_histogram (histogram_inter_token_latency_seconds Examples.small) ∧
  finite_count (inter_token_latency (snd (observe_inter_token_latency (lit 1.5) 1 Examples.small)))
    = finite_count (inter_token_latency Examples.small).
Proof.
  assert (Hn : (1 ≤ 1)%Z) by lia.
  pose proof small_inter_token_latency_wf as Hwf.
  pose proof (proj1 observe_inter_token_latency_overflow Examples.small (lit 1.5) 1%Z Hn Hwf
                small_bounds_below) as (_ & _ & Hfinite & _).
  split_and!; assumption.
Defined.


(** C5 at a request with 7 prompt tokens, no generated token and 2 cached
    tokens. *)
Lemma observe_one_finished_request_derived_witness :
  fst (observe_one_finished_request 7 0 2 (lit 1.5) Examples.tokenizer) = Returned tt ∧
  histogram_time_per_output_token
    (snd (observe_one_finished_request 7 0 2 (lit 1.5) Examples.tokenizer))
  = histogram_time_per_output_token Examples.tokenizer.
Proof.
  assert (Hp : (0 ≤ 7)%Z) by lia.
  assert (Hg : (0 ≤ 0)%Z) by lia.
  assert (Hc : (0 ≤ 2)%Z) by lia.
  pose proof (observe_one_finished_request_derived Examples.tokenizer 7 0 2 (lit 1.5)
                Hp Hg Hc tokenizer_e2e_wf tokenizer_time_per_output_token_wf)
    as (Hret & _ & _ & _ & _ & _ & Hzero & _).
  split; [exact Hret | exact (proj2 (Hzero eq_refl))].
Defined.

(** C6 at a request with -1 generated tokens. *)
Lemma observe_one_finished_request_negative_witness :
  fst (observe_one_finished_request 5 (-1) 0 (lit 1) Examples.tokenizer) = Raised ValueError.
Proof.
  assert (Hneg : (5 < 0 ∨ -1 < 0 ∨ 0 < 0)%Z) by lia.
  exact (proj1 (observe_one_finished_request_negative Examples.tokenizer 5 (-1) 0 (lit 1) Hneg)).
Defined.

(** C10 at three new tokens. *)
Lemma observe_inter_token_latency_division_witness :
  truediv (lit 0.3) 3 = Returned (lit 0.3 / float 3) ∧
  fst (observe_inter_token_latency (lit 0.3) 3 Examples.small) = Returned tt.
Proof.
  assert (Hn : (1 ≤ 3)%Z) by lia.
  pose proof (proj2 (observe_inter_token_latency_division Examples.small (lit 0.3)) 3%Z Hn)
    as [Hdiv Hret].
  split; [exact Hdiv | exact (Hret small_inter_token_latency_wf)].
Defined.

(** * Further properties of the two collectors *)

(** ** What [observe_inter_token_latency] leaves alone *)

(** X1.  Whatever its arguments and whether it returns or raises, a call
    of [observe_inter_token_latency] writes nothing but the state of the
    inter-token-latency histogram under the collector's label tuple: the
    label dictionary, the four counters, the five other histograms, and the
    name, ladder and other label tuples of the inter-token-latency histogram
    are as before. *)
Theorem observe_inter_token_latency_frame (self : t) (internval : Qc) (num_new_tokens : Z) :
  let self' := snd (observe_inter_token_latency internval num_new_tokens self) in
  let h := histogram_inter_token_latency_seconds self in
  let h' := histogram_inter_token_latency_seconds self' in
  labels self' = labels self ∧
  counters self' = counters self ∧
  delete 2%nat (histograms self') = delete 2%nat (histograms self) ∧
  h_name h' = h_name h ∧
  h_labelnames h' = h_labelnames h ∧
  h_upper_bounds h' = h_upper_bounds h ∧
  ∀ key, key ≠ labelvalues (labels self) → h_metrics h' !! key = h_metrics h !! key.
Proof.
  destruct (decide (num_new_tokens = 0%Z)) as [->|Hn].
  - cbn. split_and!; reflexivity.
  - rewrite observe_inter_token_latency_eq by assumption.
    destruct self as [labels pt gt ct nr h1 h2 h3 h4 h5 h6]. cbn.
    split_and!; try reflexivity.
    intros key Hkey. by rewrite lookup_insert_ne.
Qed.

(** ** A negative number of new tokens *)

(** X2.  [observe_inter_token_latency] does not check the sign of
    [num_new_tokens]: with a negative number the call returns normally,
    the sum still grows by the raw interval, and the counter of the bucket
    found, hence the total count of the histogram, goes down by the
    number. *)
Theorem observe_inter_token_latency_negative_tokens
    (self : t) (internval : Qc) (num_new_tokens : Z) :
  (num_new_tokens < 0)%Z →
  wf_histogram (histogram_inter_token_latency_seconds self) →
  let his := inter_token_latency self in
  let call := observe_inter_token_latency internval num_new_tokens self in
  let his' := inter_token_latency (snd call) in
  fst call = Returned tt ∧
  _sum his' = _sum his + internval ∧
  _count his' = _count his + float num_new_tokens ∧
  _count his' < _count his.
Proof.
  intros Hn Hwf his call his'.
  destruct (observe_inter_token_latency_run self internval num_new_tokens) as
    (i & bound & value & Hfind & Hvalue & Hcall); [lia | assumption |].
  fold his in Hfind, Hvalue, Hcall. fold call in Hcall.
  apply list_find_Some in Hfind as (Hi & _).
  destruct (counts_insert his (_sum his + internval) i bound value (float num_new_tokens)
              Hi Hvalue) as (Hcount & _).
  unfold his'. rewrite Hcall. cbn [fst snd]. rewrite state_of_store.
  split_and!; try done. rewrite Hcount.
  assert (Hneg : float num_new_tokens < 0).
  { pose proof (proj1 (Z2Qc_inj_lt num_new_tokens 0) Hn) as Hlt.
    by rewrite Z2Qc_inj_0 in Hlt. }
  pose proof (proj1 (Qcplus_lt_mono_l _ _ (_count his)) Hneg) as Hlt.
  by rewrite Qcplus_0_r in Hlt.
Qed.

(** ** Cumulative bucket counts *)

Lemma bound_le_refl (a : bound) : bound_le a a = true.
Proof. destruct a as [q|]; simpl; [|reflexivity]. apply Qle_bool_iff, Qle_refl. Qed.

Lemma bound_le_trans (a b c : bound) :
  bound_le a b = true → bound_le b c = true → bound_le a c = true.
Proof.
  destruct a as [x|], b as [y|], c as [z|]; simpl; try done.
  rewrite !Qle_bool_iff. apply Qle_trans.
Qed.

(** In a ladder the library accepts, a bound is not above the bounds
    after it. *)
Lemma is_sorted_lookup (upper_bounds : list bound) :
  is_sorted upper_bounds = true →
  ∀ i j a b, (i ≤ j)%nat → upper_bounds !! i = Some a → upper_bounds !! j = Some b →
             bound_le a b = true.
Proof.
  induction upper_bounds as [|first rest IH]; intros Hsorted i j a b Hij Ha Hb; [done|].
  assert (Hrest : is_sorted rest = true).
  { simpl in Hsorted. destruct rest; [reflexivity|]. by apply andb_prop in Hsorted as [_ ?]. }
  destruct i as [|i].
  - injection Ha as <-. destruct j as [|j]; [injection Hb as <-; apply bound_le_refl|].
    destruct rest as [|second rest']; [done|].
    simpl in Hsorted. apply andb_prop in Hsorted as [Hfirst _].
    apply (bound_le_trans _ second); [exact Hfirst|].
    by apply (IH Hrest 0%nat j second b); [lia | | ].
  - destruct j as [|j]; [lia|]. apply (IH Hrest i j); [lia | assumption..].
Qed.

Lemma total_insert (buckets : list Qc) (i : nat) (value amount : Qc) :
  buckets !! i = Some value →
  foldr Qcplus 0 (<[i := value + amount]> buckets) = foldr Qcplus 0 buckets + amount.
Proof.
  revert i. induction buckets as [|v buckets IH]; intros [|i] Hv; simplify_eq/=.
  - ring.
  - rewrite (IH _ Hv). ring.
Qed.

(** X4.  On an ascending ladder the fast path keeps the exported counts
    cumulative: after a call with a number of new tokens other than 0,
    the count exported for a bucket has grown by that number when
    [internval / num_new_tokens] is not above the bucket's bound, and is
    unchanged otherwise. *)
Theorem observe_inter_token_latency_cumulative
    (self : t) (internval : Qc) (num_new_tokens : Z) :
  num_new_tokens ≠ 0%Z →
  wf_histogram (histogram_inter_token_latency_seconds self) →
  is_sorted (h_upper_bounds (histogram_inter_token_latency_seconds self)) = true →
  let adjusted_interval := internval / float num_new_tokens in
  let his := inter_token_latency self in
  let his' := inter_token_latency (snd (observe_inter_token_latency internval num_new_tokens self)) in
  ∀ j bound,
    _upper_bounds his !! j = Some bound →
    cumulative his' j
    = cumulative his j + (if float_le adjusted_interval bound then float num_new_tokens else 0).
Proof.
  intros Hn Hwf Hsorted adjusted_interval his his' j bound Hj.
  destruct (observe_inter_token_latency_run self internval num_new_tokens Hn Hwf) as
    (i & first & value & Hfind & Hvalue & Hcall).
  fold his adjusted_interval in Hfind, Hvalue, Hcall.
  destruct (wf_inter_token_latency self Hwf) as [Hub Hlen]. fold his in Hub, Hlen.
  rewrite <- Hub in Hsorted.
  apply list_find_Some in Hfind as (Hi & Hle & Hfirst).
  unfold his'. rewrite Hcall. cbn [snd]. rewrite state_of_store.
  unfold cumulative. cbn [_buckets].
  destruct (decide (i ≤ j)%nat) as [Hij|Hij].
  - assert (Hbound : float_le adjusted_interval bound = true).
    { pose proof (is_sorted_lookup _ Hsorted i j first bound Hij Hi Hj) as Hle'.
      exact (bound_le_trans (Fin adjusted_interval) first bound Hle Hle'). }
    rewrite Hbound, take_insert_lt by lia.
    apply total_insert. rewrite lookup_take_lt by lia. exact Hvalue.
  - assert (Hbound : float_le adjusted_interval bound = false).
    { apply not_true_iff_false. apply (Hfirst j bound Hj). lia. }
    rewrite Hbound, take_insert_ge by lia. ring.
Qed.

(** ** The single-sample methods *)

(** What one sample does to the state a histogram reads under a label
    tuple. *)
Lemma Histogram_observe_child (key : list string) (amount : Qc) (h : Histogram) :
  wf_histogram h →
  let his := Histogram_child key h in
  let his' := Histogram_child key (Histogram_observe key amount h) in
  _upper_bounds his' = _upper_bounds his ∧
  _sum his' = _sum his + amount ∧
  _count his' = _count his + 1.
Proof.
  intros Hwf his his'. destruct (wf_histogram_child key h Hwf) as [Hub Hlen].
  fold his in Hub, Hlen.
  destruct (observe_run amount his) as (_ & Hub' & _ & Hsum & Hcount);
    [rewrite Hub; apply Hwf | assumption |].
  unfold his', Histogram_observe. rewrite Histogram_child_store. fold his.
  split_and!; assumption.
Qed.

(** X5.  Each of [observe_time_to_first_token],
    [observe_tokenization_latency] and [observe_detokenization_latency]
    returns normally for every value, replaces its own histogram by the
    histogram with the value observed, and leaves the label dictionary,
    the counters and the other histograms as they were; the histogram
    observed has one more sample and its sum has grown by the value. *)
Theorem single_sample_methods (self : t) (value : Qc) :
  wf self →
  let key := labelvalues (labels self) in
  let observed (call : outcome unit * t) (i : nat) (h : Histogram) :=
    fst call = Returned tt ∧
    labels (snd call) = labels self ∧
    counters (snd call) = counters self ∧
    histograms (snd call) = <[i := Histogram_observe key value h]> (histograms self) ∧
    _sum (Histogram_child key (Histogram_observe key value h))
      = _sum (Histogram_child key h) + value ∧
    _count (Histogram_child key (Histogram_observe key value h))
      = _count (Histogram_child key h) + 1 in
  observed (observe_time_to_first_token value self) 0%nat
           (histogram_time_to_first_token self) ∧
  observed (observe_tokenization_latency value self) 4%nat
           (histogram_tokenization_latency self) ∧
  observed (observe_detokenization_latency value self) 5%nat
           (histogram_detokenization_latency self).
Proof.
  intros Hwf key observed. unfold observed.
  destruct self as [labels pt gt ct nr h1 h2 h3 h4 h5 h6].
  pose proof Hwf as (H1 & H2 & H3 & H4 & H5 & H6)%wf_fields.
  change (observe_time_to_first_token value) with
    (_log_histogram histogram_time_to_first_token_ value).
  change (observe_tokenization_latency value) with
    (_log_histogram histogram_tokenization_latency_ value).
  change (observe_detokenization_latency value) with
    (_log_histogram histogram_detokenization_latency_ value).
  rewrite !_log_histogram_eq. attrs.
  rewrite !Histogram_observe_returns by assumption.
  destruct (Histogram_observe_child key value h1 H1) as (_ & ? & ?).
  destruct (Histogram_observe_child key value h5 H5) as (_ & ? & ?).
  destruct (Histogram_observe_child key value h6 H6) as (_ & ? & ?).
  split_and!; first [reflexivity | assumption].
Qed.

(** ** What construction fixes, and the invariant, along every run *)

Import Serving.

Lemma same_shape_refl (self : t) : same_shape self self.
Proof. by split_and!. Qed.

Lemma same_shape_trans (a b c : t) : same_shape a b → same_shape b c → same_shape a c.
Proof.
  intros (? & ? & ?) (? & ? & ?). split_and!; etrans; eassumption.
Qed.

Lemma _log_histogram_same_shape (histogram : attr t Histogram) (data : Qc) (self : t) :
  histogram ∈ [histogram_time_to_first_token_; histogram_time_per_output_token_;
               histogram_inter_token_latency_seconds_; histogram_e2e_request_latency_;
               histogram_tokenization_latency_; histogram_detokenization_latency_] →
  same_shape self (snd (_log_histogram histogram data self)).
Proof.
  intros Hin. rewrite _log_histogram_eq.
  destruct self as [labels pt gt ct nr h1 h2 h3 h4 h5 h6].
  repeat (apply elem_of_cons in Hin as [->|Hin]; [by split_and!|]).
  by apply elem_of_nil in Hin.
Qed.

Lemma _log_histogram_keeps_wf (histogram : attr t Histogram) (data : Qc) (self : t) :
  histogram ∈ [histogram_time_to_first_token_; histogram_time_per_output_token_;
               histogram_inter_token_latency_seconds_; histogram_e2e_request_latency_;
               histogram_tokenization_latency_; histogram_detokenization_latency_] →
  wf self → wf (snd (_log_histogram histogram data self)).
Proof.
  intros Hin Hwf. rewrite _log_histogram_eq.
  destruct self as [labels pt gt ct nr h1 h2 h3 h4 h5 h6].
  pose proof Hwf as (H1 & H2 & H3 & H4 & H5 & H6)%wf_fields.
  repeat (apply elem_of_cons in Hin as [->|Hin];
          [attrs; apply wf_fields; split_and!;
           first [assumption | by apply wf_histogram_observe]|]).
  by apply elem_of_nil in Hin.
Qed.

Lemma observe_inter_token_latency_same_shape (self : t) (internval : Qc) (num_new_tokens : Z) :
  same_shape self (snd (observe_inter_token_latency internval num_new_tokens self)).
Proof.
  destruct (decide (num_new_tokens = 0%Z)) as [->|Hn]; [apply same_shape_refl|].
  rewrite observe_inter_token_latency_eq by assumption.
  destruct self as [labels pt gt ct nr h1 h2 h3 h4 h5 h6]. by split_and!.
Qed.

Lemma observe_one_finished_request_same_shape
    (self : t) (prompt_tokens generation_tokens cached_tokens : Z) (e2e_latency : Qc) :
  same_shape self
    (snd (observe_one_finished_request prompt_tokens generation_tokens cached_tokens
                                       e2e_latency self)).
Proof.
  destruct self as [labels pt gt ct nr h1 h2 h3 h4 h5 h6].
  unfold observe_one_finished_request, mbind, M_bind, bind.
  rewrite labels_inc_run.
  destruct (Qle_bool 0 (float prompt_tokens)); attrs; [|by split_and!].
  rewrite labels_inc_run.
  destruct (Qle_bool 0 (float generation_tokens)); attrs; [|by split_and!].
  rewrite labels_inc_run.
  destruct (Qle_bool 0 (float cached_tokens)); attrs; [|by split_and!].
  rewrite labels_inc_run, Qle_bool_0_1. attrs.
  rewrite _log_histogram_eq. attrs.
  destruct (fst (observe e2e_latency _)); [|by split_and!].
  destruct (1 <=? generation_tokens)%Z; [|by split_and!].
  unfold get, lift, truediv. destruct (generation_tokens =? 0)%Z; [by split_and!|].
  rewrite on_Histogram_labels. by split_and!.
Qed.

Lemma invoke_keeps (m : method) (self : t) :
  wf self → wf (snd (invoke m self)) ∧ same_shape self (snd (invoke m self)).
Proof.
  intros Hwf. destruct m; cbn [invoke].
  - split; [by apply observe_one_finished_request_keeps_wf
           | apply observe_one_finished_request_same_shape].
  - split; [apply (_log_histogram_keeps_wf histogram_time_to_first_token_)
           | apply (_log_histogram_same_shape histogram_time_to_first_token_)];
      try assumption; apply list_elem_of_here.
  - split; [by apply observe_inter_token_latency_keeps_wf
           | apply observe_inter_token_latency_same_shape].
  - split; [apply (_log_histogram_keeps_wf histogram_tokenization_latency_)
           | apply (_log_histogram_same_shape histogram_tokenization_latency_)];
      try assumption; do 4 apply list_elem_of_further; apply list_elem_of_here.
  - split; [apply (_log_histogram_keeps_wf histogram_detokenization_latency_)
           | apply (_log_histogram_same_shape histogram_detokenization_latency_)];
      try assumption; do 5 apply list_elem_of_further; apply list_elem_of_here.
Qed.

Lemma serve_keeps (ms : list method) (self : t) :
  wf self → wf (serve ms self) ∧ same_shape self (serve ms self).
Proof.
  revert self. induction ms as [|m rest IH]; intros self Hwf; cbn [serve].
  - split; [assumption | apply same_shape_refl].
  - destruct (invoke_keeps m self Hwf) as [Hwf' Hshape].
    destruct (IH _ Hwf') as [Hwf'' Hshape'].
    split; [assumption | by eapply same_shape_trans].
Qed.

(** X6.  From construction on and through every sequence of calls of the
    collector's methods, with whatever arguments and whether the calls
    return or raise, every histogram of the collector keeps the library's
    shape (one counter per bound, under the ladder it was constructed
    with, closed by [+Inf]), and the label dictionary and the name, label
    names and ladder of every metric stay what construction made them. *)
Theorem tokenizer_invariant (labels : list (string * string)) (ms : list method) :
  ∃ self,
    __init__ labels = Returned self ∧
    wf (serve ms self) ∧
    same_shape self (serve ms self) ∧
    TokenizerMetricsCollector.labels (serve ms self) = labels.
Proof.
  destruct (tokenizer_init_returns labels) as (self & Hinit & Hlabels).
  exists self. destruct (serve_keeps ms self (tokenizer_init_wf labels self Hinit))
    as [Hwf Hshape].
  split_and!; try assumption. destruct Hshape as (-> & _). exact Hlabels.
Qed.

(** ** More on [observe_one_finished_request] *)

Lemma float_nonneg_bool (n : Z) : Qle_bool 0 (float n) = (0 <=? n)%Z.
Proof.
  destruct (Z.leb_spec 0 n) as [Hn|Hn]; [by apply float_nonneg | by apply float_neg].
Qed.

Lemma Qcle_plus_nonneg (value amount : Qc) :
  Qle_bool 0 amount = true → value ≤ value + amount.
Proof.
  intros Hle%Qle_bool_iff.
  pose proof (proj1 (Qcplus_le_mono_l 0 amount value) Hle) as Hmono.
  by rewrite Qcplus_0_r in Hmono.
Qed.

(** X7.  No call of [observe_one_finished_request] makes a counter go
    down: whatever the arguments (negative counts included) and whether
    the call returns or raises, each of the four counters reads afterwards
    at least what it read before. *)
Theorem observe_one_finished_request_counters_grow
    (self : t) (prompt_tokens generation_tokens cached_tokens : Z) (e2e_latency : Qc) :
  let self' :=
    snd (observe_one_finished_request prompt_tokens generation_tokens cached_tokens
                                      e2e_latency self) in
  value_of prompt_tokens_total_ self ≤ value_of prompt_tokens_total_ self' ∧
  value_of generation_tokens_total_ self ≤ value_of generation_tokens_total_ self' ∧
  value_of cached_tokens_total_ self ≤ value_of cached_tokens_total_ self' ∧
  value_of num_requests_total_ self ≤ value_of num_requests_total_ self'.
Proof.
  destruct self as [labels pt gt ct nr h1 h2 h3 h4 h5 h6].
  unfold observe_one_finished_request, mbind, M_bind, bind.
  rewrite labels_inc_run.
  destruct (Qle_bool 0 (float prompt_tokens)) eqn:Hp; attrs;
    [|rewrite ?Counter_value_store; split_and!; apply Qcle_refl].
  rewrite labels_inc_run.
  destruct (Qle_bool 0 (float generation_tokens)) eqn:Hg; attrs;
    [|rewrite ?Counter_value_store; split_and!;
      first [by apply Qcle_plus_nonneg | apply Qcle_refl]].
  rewrite labels_inc_run.
  destruct (Qle_bool 0 (float cached_tokens)) eqn:Hc; attrs;
    [|rewrite ?Counter_value_store; split_and!;
      first [by apply Qcle_plus_nonneg | apply Qcle_refl]].
  rewrite labels_inc_run, Qle_bool_0_1. attrs.
  rewrite _log_histogram_eq. attrs.
  assert (Hdone : ∀ pt' gt' ct' nr',
            pt' = Counter_store (labelvalues labels)
                    (Counter_value (labelvalues labels) pt + float prompt_tokens) pt →
            gt' = Counter_store (labelvalues labels)
                    (Counter_value (labelvalues labels) gt + float generation_tokens) gt →
            ct' = Counter_store (labelvalues labels)
                    (Counter_value (labelvalues labels) ct + float cached_tokens) ct →
            nr' = Counter_store (labelvalues labels)
                    (Counter_value (labelvalues labels) nr + 1) nr →
            Counter_value (labelvalues labels) pt ≤ Counter_value (labelvalues labels) pt' ∧
            Counter_value (labelvalues labels) gt ≤ Counter_value (labelvalues labels) gt' ∧
            Counter_value (labelvalues labels) ct ≤ Counter_value (labelvalues labels) ct' ∧
            Counter_value (labelvalues labels) nr ≤ Counter_value (labelvalues labels) nr').
  { intros ? ? ? ? -> -> -> ->. rewrite !Counter_value_store.
    split_and!; by apply Qcle_plus_nonneg. }
  destruct (fst (observe e2e_latency _)); [|by apply Hdone].
  destruct (1 <=? generation_tokens)%Z; [|by apply Hdone].
  unfold get, lift, truediv. destruct (generation_tokens =? 0)%Z; [by apply Hdone|].
  rewrite on_Histogram_labels. by apply Hdone.
Qed.

(** X8.  [observe_one_finished_request] raises exactly when one of the
    token counts is negative, and then [ValueError]: on a collector whose
    histograms have the library's shape the guard on [generation_tokens]
    keeps the division from ever raising [ZeroDivisionError]. *)
Theorem observe_one_finished_request_outcome
    (self : t) (prompt_tokens generation_tokens cached_tokens : Z) (e2e_latency : Qc) :
  wf_histogram (histogram_e2e_request_latency self) →
  wf_histogram (histogram_time_per_output_token self) →
  fst (observe_one_finished_request prompt_tokens generation_tokens cached_tokens
                                    e2e_latency self) =
    if ((0 <=? prompt_tokens) && (0 <=? generation_tokens) && (0 <=? cached_tokens))%Z
    then Returned tt
    else Raised ValueError.
Proof.
  intros Hwf_e2e Hwf_tpot.
  destruct self as [labels pt gt ct nr h1 h2 h3 h4 h5 h6].
  cbn [histogram_e2e_request_latency histogram_time_per_output_token] in Hwf_e2e, Hwf_tpot.
  unfold observe_one_finished_request, mbind, M_bind, bind.
  rewrite labels_inc_run, float_nonneg_bool.
  destruct (0 <=? prompt_tokens)%Z; attrs; [|reflexivity].
  rewrite labels_inc_run, float_nonneg_bool.
  destruct (Z.leb_spec 0 generation_tokens) as [Hg|Hg]; attrs; [|reflexivity].
  rewrite labels_inc_run, float_nonneg_bool.
  destruct (0 <=? cached_tokens)%Z; attrs; [|reflexivity].
  rewrite labels_inc_run, Qle_bool_0_1. attrs.
  rewrite _log_histogram_eq. attrs.
  rewrite (Histogram_observe_returns _ _ _ Hwf_e2e).
  destruct (Z.leb_spec 1 generation_tokens) as [Hone|Hnone]; [|reflexivity].
  unfold get, lift. rewrite truediv_nonzero by lia.
  rewrite on_Histogram_labels. attrs.
  by rewrite (Histogram_observe_returns _ _ _ Hwf_tpot).
Qed.

(** X9.  A refused increment still leaves a trace: with negative
    [prompt_tokens] the call raises, yet the prompt counter now has a
    value under the collector's label tuple, the value it read before, 0
    when the tuple had none. *)
Theorem observe_one_finished_request_refused_creates_value
    (self : t) (prompt_tokens generation_tokens cached_tokens : Z) (e2e_latency : Qc) :
  (prompt_tokens < 0)%Z →
  let key := labelvalues (labels self) in
  let call :=
    observe_one_finished_request prompt_tokens generation_tokens cached_tokens
                                 e2e_latency self in
  fst call = Raised ValueError ∧
  c_metrics (prompt_tokens_total (snd call)) !! key
    = Some (value_of prompt_tokens_total_ self) ∧
  (c_metrics (prompt_tokens_total self) !! key = None →
   c_metrics (prompt_tokens_total (snd call)) !! key = Some 0) ∧
  (∀ key', key' ≠ key →
     c_metrics (prompt_tokens_total (snd call)) !! key'
     = c_metrics (prompt_tokens_total self) !! key').
Proof.
  intros Hp.
  destruct self as [labels pt gt ct nr h1 h2 h3 h4 h5 h6].
  unfold observe_one_finished_request, mbind, M_bind, bind.
  rewrite labels_inc_run, (float_neg _ Hp). attrs.
  unfold Counter_store, Counter_value. cbn.
  split_and!; [reflexivity | by rewrite lookup_insert_eq | |].
  - intros ->. by rewrite lookup_insert_eq.
  - intros key' Hkey. by rewrite lookup_insert_ne.
Qed.

(** ** The scheduler collector *)

Module SchedulerMore.

Import SchedulerMetricsCollector Scheduling.

(** One sample above every finite bound goes to the [+Inf] bucket. *)
Lemma observe_overflow (amount : Qc) (his : HistogramChild) :
  Inf ∈ _upper_bounds his →
  wf_child his →
  (∀ q, Fin q ∈ _upper_bounds his → q < amount) →
  finite_count (snd (observe amount his)) = finite_count his ∧
  overflow_count (snd (observe amount his)) = overflow_count his + 1.
Proof.
  intros Hinf Hlen Habove.
  destruct (first_bucket_exists amount (_upper_bounds his) Hinf) as (i & bound & Hfind).
  pose proof Hfind as (Hi & Hle & _)%list_find_Some.
  destruct (lookup_lt_is_Some_2 (_buckets his) i) as [value Hvalue].
  { rewrite Hlen. eapply lookup_lt_Some, Hi. }
  assert (bound = Inf) as ->.
  { destruct bound as [q|]; [|reflexivity].
    apply float_le_Fin in Hle. apply list_elem_of_lookup_2, Habove in Hi.
    by apply Qclt_not_le in Hi. }
  rewrite observe_eq, Hfind, Hvalue. cbn [snd].
  destruct (counts_insert his (_sum his + amount) i Inf value 1 Hi Hvalue)
    as (_ & Hfinite & Hoverflow).
  split; [rewrite Hfinite; simpl; ring | exact Hoverflow].
Qed.

(** X10.  What [__init__] constructs, when it returns: the collector
    holds the label dictionary and the clock reading as its last-log time,
    seven gauges with the names below, labelled by the dictionary's keys
    and not yet set, and the queue-latency histogram, not yet observed,
    whose ladder runs strictly ascending from 1 ms to 60 s and is closed by
    [+Inf].  (Whether the library accepts the label names and the metric
    names is not part of the statement.) *)
Theorem scheduler_init (labels : list (string * string)) (now : Qc) (self : t) :
  __init__ labels now = Returned self →
  SchedulerMetricsCollector.labels self = labels ∧
  last_log_time self = now ∧
  map g_name (gauges self) =
    ["sglang:num_running_reqs"; "sglang:num_used_tokens"; "sglang:token_usage";
     "sglang:gen_throughput"; "sglang:num_queue_reqs"; "sglang:cache_hit_rate";
     "sglang:spec_accept_length"] ∧
  Forall (λ g, g_metrics g = ∅ ∧ g_labelnames g = map fst labels) (gauges self) ∧
  h_name (histogram_request_queue_latency self) = "sglang:request_queue_latency_seconds" ∧
  h_labelnames (histogram_request_queue_latency self) = map fst labels ∧
  h_metrics (histogram_request_queue_latency self) = ∅ ∧
  h_upper_bounds (histogram_request_queue_latency self)
    = request_queue_latency_buckets ++ [Inf] ∧
  ascending (h_upper_bounds (histogram_request_queue_latency self)) = true ∧
  head request_queue_latency_buckets = Some (Fin (lit 0.001)) ∧
  list.last request_queue_latency_buckets = Some (Fin (lit 60)) ∧
  wf_histogram (histogram_request_queue_latency self).
Proof.
  intros Hinit.
  assert (Hrun : ∃ made, __init__ labels now = Returned made)
    by (eexists; vm_compute; reflexivity).
  destruct Hrun as [made Hmade]. rewrite Hmade in Hinit. injection Hinit as <-.
  vm_compute in Hmade. injection Hmade as <-.
  split_and!; try reflexivity.
  - repeat (constructor; [split; reflexivity|]). constructor.
  - by_evaluation.
  - apply wf_histogram_fresh; vm_compute; reflexivity.
Qed.

(** The collector [log_stats] leaves, field by field. *)
Lemma log_stats_snd (stats : SchedulerStats.t) (now : Qc) (labels : list (string * string))
    (time : Qc) (g1 g2 g3 g4 g5 g6 g7 : Gauge) (h : Histogram) :
  snd (log_stats stats now (Make labels time g1 g2 g3 g4 g5 g6 g7 h)) =
    Make labels now
      (Gauge_store (labelvalues labels) (float (SchedulerStats.num_running_reqs stats)) g1)
      (Gauge_store (labelvalues labels) (float (SchedulerStats.num_used_tokens stats)) g2)
      (Gauge_store (labelvalues labels) (SchedulerStats.token_usage stats) g3)
      (Gauge_store (labelvalues labels) (SchedulerStats.gen_throughput stats) g4)
      (Gauge_store (labelvalues labels) (float (SchedulerStats.num_queue_reqs stats)) g5)
      (Gauge_store (labelvalues labels) (SchedulerStats.cache_hit_rate stats) g6)
      (Gauge_store (labelvalues labels) (SchedulerStats.spec_accept_length stats) g7)
      h.
Proof. reflexivity. Qed.

(** X11.  A gauge keeps nothing of earlier writes: [log_stats] after an
    earlier [log_stats] leaves the collector exactly as the later call
    alone would. *)
Theorem log_stats_overwrites (self : t) (stats1 stats2 : SchedulerStats.t) (now1 now2 : Qc) :
  snd (log_stats stats2 now2 (snd (log_stats stats1 now1 self)))
  = snd (log_stats stats2 now2 self).
Proof.
  destruct self as [labels time g1 g2 g3 g4 g5 g6 g7 h].
  rewrite !log_stats_snd. unfold Gauge_store. cbn [setattr getattr g_metrics_ g_metrics
    g_name g_documentation g_labelnames g_multiprocess_mode].
  by rewrite !insert_insert_eq.
Qed.

Lemma observe_request_queue_latency_eq (latency : Qc) (self : t) :
  observe_request_queue_latency latency self =
    (fst (observe latency (Histogram_child (labelvalues (labels self))
                                           (histogram_request_queue_latency self))),
     setattr histogram_request_queue_latency_
       (Histogram_observe (labelvalues (labels self)) latency
                          (histogram_request_queue_latency self)) self).
Proof.
  unfold observe_request_queue_latency, mbind, M_bind, bind, get.
  apply (on_Histogram_labels histogram_request_queue_latency_).
Qed.

(** X12.  [observe_request_queue_latency] returns normally for every
    latency, zero and latencies beyond the largest bound included: the
    queue-latency histogram has one more sample and its sum has grown by
    the latency, a latency above every finite bound is counted by the
    [+Inf] bucket alone, and the gauges, the label dictionary and the
    last-log time are as before. *)
Theorem observe_request_queue_latency_records (self : t) (latency : Qc) :
  wf_histogram (histogram_request_queue_latency self) →
  let key := labelvalues (labels self) in
  let call := observe_request_queue_latency latency self in
  let his := Histogram_child key (histogram_request_queue_latency self) in
  let his' := Histogram_child key (histogram_request_queue_latency (snd call)) in
  fst call = Returned tt ∧
  _sum his' = _sum his + latency ∧
  _count his' = _count his + 1 ∧
  _upper_bounds his' = _upper_bounds his ∧
  ((∀ q, Fin q ∈ _upper_bounds his → q < latency) →
   finite_count his' = finite_count his ∧ overflow_count his' = overflow_count his + 1) ∧
  gauges (snd call) = gauges self ∧
  labels (snd call) = labels self ∧
  last_log_time (snd call) = last_log_time self.
Proof.
  intros Hwf key call his his'.
  subst his' call. rewrite observe_request_queue_latency_eq.
  destruct self as [labels time g1 g2 g3 g4 g5 g6 g7 h].
  cbn [fst snd getattr setattr histogram_request_queue_latency_ histogram_request_queue_latency
       SchedulerMetricsCollector.labels last_log_time gauges num_running_reqs num_used_tokens
       token_usage gen_throughput num_queue_reqs cache_hit_rate spec_accept_length] in *.
  subst key his.
  destruct (Histogram_observe_child (labelvalues labels) latency h Hwf) as (Hub & Hsum & Hcount).
  rewrite (Histogram_observe_returns _ _ _ Hwf).
  split_and!; try done.
  intros Habove. unfold Histogram_observe. rewrite Histogram_child_store.
  destruct (wf_histogram_child (labelvalues labels) h Hwf) as [Hub' Hlen].
  apply observe_overflow; [rewrite Hub'; apply Hwf | assumption..].
Qed.

(** What one call does to the gauges, the dictionary and the last-log
    time. *)
Lemma invoke_step (m : method) (self : t) :
  let self' := snd (invoke m self) in
  labels self' = labels self ∧
  map g_name (gauges self') = map g_name (gauges self) ∧
  map g_multiprocess_mode (gauges self') = map g_multiprocess_mode (gauges self) ∧
  match m with
  | LogStats stats now =>
      last_log_time self' = now ∧
      map (λ g, g_metrics g !! labelvalues (labels self)) (gauges self')
        = map Some (fields stats)
  | ObserveRequestQueueLatency _ =>
      last_log_time self' = last_log_time self ∧ gauges self' = gauges self
  end.
Proof.
  destruct m as [stats now|latency]; cbn [invoke].
  - destruct self as [labels time g1 g2 g3 g4 g5 g6 g7 h].
    rewrite log_stats_snd. split_and!; try reflexivity.
    unfold Gauge_store. cbn -[float]. by rewrite !lookup_insert_eq.
  - rewrite observe_request_queue_latency_eq.
    destruct self as [labels time g1 g2 g3 g4 g5 g6 g7 h]. by split_and!.
Qed.

(** X13.  Along every sequence of calls of the scheduler collector's
    methods the label dictionary and the names and merge modes of the
    gauges stay what they were; the last-log time is the time of the last
    [log_stats] among the calls, and the gauges then read, under the
    collector's label tuple, the fields of the snapshot that call was
    given; without a [log_stats] the time and the gauges are untouched. *)
Theorem scheduler_run (self : t) (ms : list method) :
  let self' := serve ms self in
  labels self' = labels self ∧
  map g_name (gauges self') = map g_name (gauges self) ∧
  map g_multiprocess_mode (gauges self') = map g_multiprocess_mode (gauges self) ∧
  match last_logged ms with
  | Some (stats, now) =>
      last_log_time self' = now ∧
      map (λ g, g_metrics g !! labelvalues (labels self)) (gauges self')
        = map Some (fields stats)
  | None =>
      last_log_time self' = last_log_time self ∧ gauges self' = gauges self
  end.
Proof.
  revert self. induction ms as [|m rest IH]; intros self; cbn [serve last_logged].
  - by split_and!.
  - destruct (invoke_step m self) as (Hlabels & Hnames & Hmodes & Hstep).
    destruct (IH (snd (invoke m self))) as (Hlabels' & Hnames' & Hmodes' & Hrest).
    rewrite Hlabels in Hlabels', Hrest. rewrite Hnames in Hnames'. rewrite Hmodes in Hmodes'.
    split_and!; try assumption.
    destruct (last_logged rest) as [[stats now]|]; [exact Hrest|].
    destruct Hrest as [Htime Hgauges]. rewrite Htime, Hgauges.
    destruct m as [stats now|latency]; exact Hstep.
Qed.

End SchedulerMore.

(** ** The further properties at concrete calls *)

(** X2 at the call (0.3, -3). *)
Lemma observe_inter_token_latency_negative_tokens_witness :
  _count (inter_token_latency (snd (observe_inter_token_latency (lit 0.3) (-3) Examples.small)))
  < _count (inter_token_latency Examples.small).
Proof.
  assert (Hn : (-3 < 0)%Z) by lia.
  exact (proj2 (proj2 (proj2 (observe_inter_token_latency_negative_tokens
                                Examples.small (lit 0.3) (-3) Hn
                                small_inter_token_latency_wf)))).
Defined.

(** X4 at the call (0.9, 3): 0.3 is above the bound 0.1 and below the
    bound 0.5. *)
Lemma observe_inter_token_latency_cumulative_witness :
  cumulative
    (inter_token_latency (snd (observe_inter_token_latency (lit 0.9) 3 Examples.small))) 0
  = cumulative (inter_token_latency Examples.small) 0
    + (if float_le (lit 0.9 / float 3) (Fin (lit 0.1)) then float 3 else 0) ∧
  cumulative
    (inter_token_latency (snd (observe_inter_token_latency (lit 0.9) 3 Examples.small))) 1
  = cumulative (inter_token_latency Examples.small) 1
    + (if float_le (lit 0.9 / float 3) (Fin (lit 0.5)) then float 3 else 0).
Proof.
  assert (Hn : 3%Z ≠ 0%Z) by lia.
  assert (Hsorted : is_sorted (h_upper_bounds
                      (histogram_inter_token_latency_seconds Examples.small)) = true)
    by (vm_compute; reflexivity).
  pose proof (observe_inter_token_latency_cumulative Examples.small (lit 0.9) 3 Hn
                small_inter_token_latency_wf Hsorted) as Hcumulative.
  split; [exact (Hcumulative 0%nat (Fin (lit 0.1)) eq_refl)
         | exact (Hcumulative 1%nat (Fin (lit 0.5)) eq_refl)].
Defined.

(** X5 at the value 0.25 on a fresh collector. *)
Lemma single_sample_methods_witness :
  fst (observe_time_to_first_token (lit 0.25) Examples.tokenizer) = Returned tt ∧
  fst (observe_tokenization_latency (lit 0.25) Examples.tokenizer) = Returned tt ∧
  fst (observe_detokenization_latency (lit 0.25) Examples.tokenizer) = Returned tt.
Proof.
  pose proof (single_sample_methods Examples.tokenizer (lit 0.25) tokenizer_example_wf)
    as ((Hfirst & _) & (Htokenization & _) & (Hdetokenization & _)).
  split_and!; assumption.
Defined.

(** X8 at a request with -1 cached tokens. *)
Lemma observe_one_finished_request_outcome_witness :
  fst (observe_one_finished_request 7 2 (-1) (lit 1.5) Examples.tokenizer) = Raised ValueError.
Proof.
  exact (observe_one_finished_request_outcome Examples.tokenizer 7 2 (-1) (lit 1.5)
           tokenizer_e2e_wf tokenizer_time_per_output_token_wf).
Defined.

(** X9 at a request with -4 prompt tokens on a fresh collector. *)
Lemma observe_one_finished_request_refused_creates_value_witness :
  c_metrics (prompt_tokens_total Examples.tokenizer) !! labelvalues (labels Examples.tokenizer)
    = None ∧
  c_metrics (prompt_tokens_total
               (snd (observe_one_finished_request (-4) 2 0 (lit 1.5) Examples.tokenizer)))
    !! labelvalues (labels Examples.tokenizer) = Some 0.
Proof.
  assert (Hp : (-4 < 0)%Z) by lia.
  assert (Hnone : c_metrics (prompt_tokens_total Examples.tokenizer)
                  !! labelvalues (labels Examples.tokenizer) = None) by reflexivity.
  pose proof (observe_one_finished_request_refused_creates_value
                Examples.tokenizer (-4) 2 0 (lit 1.5) Hp) as (_ & _ & Hcreated & _).
  split; [exact Hnone | exact (Hcreated Hnone)].
Defined.

(** X12 at a latency of 75 s, beyond the largest bound, on a fresh
    collector. *)
Lemma observe_request_queue_latency_records_witness :
  fst (SchedulerMetricsCollector.observe_request_queue_latency (lit 75) Examples.scheduler)
    = Returned tt.
Proof.
  assert (Hwf : wf_histogram
                  (SchedulerMetricsCollector.histogram_request_queue_latency Examples.scheduler))
    by (apply wf_histogram_fresh; vm_compute; reflexivity).
  exact (proj1 (SchedulerMore.observe_request_queue_latency_records
                  Examples.scheduler (lit 75) Hwf)).
Defined.

(** X10 at the example labels and the clock reading 100. *)
Lemma scheduler_init_witness :
  SchedulerMetricsCollector.last_log_time Examples.scheduler = lit 100 ∧
  h_metrics (SchedulerMetricsCollector.histogram_request_queue_latency Examples.scheduler) = ∅.
Proof.
  assert (Hinit : SchedulerMetricsCollector.__init__ Examples.labels (lit 100)
                  = Returned Examples.scheduler) by (vm_compute; reflexivity).
  destruct (SchedulerMore.scheduler_init Examples.labels (lit 100) Examples.scheduler Hinit)
    as (_ & Hnow & _ & _ & _ & _ & Hmetrics & _).
  split; assumption.
Defined.

(** * The fast path against single samples, with rounding *)

(** Inequalities between rationals in canonical form, read as
    inequalities between fractions. *)
Ltac to_Q :=
  unfold Qcle, Qclt, Qcminus, Qcopp, Qcplus, Qcmult in *;
  cbn [this Q2Qc] in *;
  repeat (rewrite !Qred_correct in * ).

Abbreviation abs := Qcabs.Qcabs.

Lemma Qcle_by_difference (x y z : Qc) : 0 ≤ z → y + - x = z → x ≤ y.
Proof. intros Hz Heq. apply Qcle_minus_iff. by rewrite Heq. Qed.

Lemma abs_sum (x y z : Qc) : z = x + y → abs z ≤ abs x + abs y.
Proof. intros ->. apply Qcabs.Qcabs_triangle. Qed.

(** One more rounded addition of [q]: from the error after [K] additions
    onto [s1], the rounded [s + q], to the error after [K + 1] onto [s]. *)
Lemma rounded_step (u P K q s s1 X : Qc) :
  0 ≤ u → 1 ≤ P → 0 ≤ K →
  abs (s1 - (s + q)) ≤ u * abs (s + q) →
  abs (X - (s1 + K * q)) ≤ (P - 1) * (abs s1 + K * abs q) →
  abs (X - (s + (K + 1) * q)) ≤ ((1 + u) * P - 1) * (abs s + (K + 1) * abs q).
Proof.
  intros Hu HP HK He1 He2.
  pose proof (Qcabs.Qcabs_nonneg s) as Ha.
  pose proof (Qcabs.Qcabs_nonneg q) as Hb.
  pose proof (Qcabs.Qcabs_triangle s q) as Hc.
  assert (Ht : abs s1 ≤ abs (s1 - (s + q)) + abs (s + q)) by (apply abs_sum; ring).
  assert (Hgoal : abs (X - (s + (K + 1) * q))
                  ≤ abs (X - (s1 + K * q)) + abs (s1 - (s + q))) by (apply abs_sum; ring).
  revert He1 He2 Ha Hb Hc Ht Hgoal.
  generalize (abs (X - (s + (K + 1) * q))) (abs (X - (s1 + K * q)))
             (abs (s1 - (s + q))) (abs (s + q)) (abs s1) (abs s) (abs q).
  intros g e2 e1 c t a b He1 He2 Ha Hb Hc Ht Hgoal.
  assert (HP1 : 0 ≤ P - 1) by (to_Q; lra).
  assert (HP0 : 0 ≤ P) by (to_Q; lra).
  assert (Huc : u * c ≤ u * (a + b)) by (by apply Qcmult_le_mono_nonneg_l).
  assert (HKb : 0 ≤ K * b) by (by apply Qcmult_nonneg_nonneg).
  assert (Hmid : (P - 1) * (t + K * b) ≤ (P - 1) * ((a + b) + u * (a + b) + K * b)).
  { apply Qcmult_le_mono_nonneg_l; [assumption|]. to_Q. lra. }
  assert (Hslack : 0 ≤ P * (u * (K * b))) by (by repeat apply Qcmult_nonneg_nonneg).
  assert (Hlast : (P - 1) * ((a + b) + u * (a + b) + K * b) + u * (a + b)
                  ≤ ((1 + u) * P - 1) * (a + (K + 1) * b)).
  { apply (Qcle_by_difference _ _ _ Hslack). ring. }
  apply (Qcle_trans _ _ _ Hgoal).
  refine (Qcle_trans _ _ _ _ Hlast).
  to_Q. lra.
Qed.

(** From [N] additions of the rounded quotient [q] to the exact sum
    [s + x], where [x] is [N] times the exact quotient [d]. *)
Lemma rounded_final (u P N q d s x X : Qc) :
  0 ≤ u → 1 ≤ P → 0 ≤ N → x = N * d →
  abs (q - d) ≤ u * abs d →
  abs (X - (s + N * q)) ≤ (P - 1) * (abs s + N * abs q) →
  abs (X - (s + x)) ≤ ((1 + u) * P - 1) * (abs s + abs x).
Proof.
  intros Hu HP HN -> He1 He2.
  rewrite (Qcabs.Qcabs_Qcmult N d), (Qcabs.Qcabs_pos N HN).
  pose proof (Qcabs.Qcabs_nonneg s) as Ha.
  pose proof (Qcabs.Qcabs_nonneg d) as HD.
  assert (Hb : abs q ≤ abs (q - d) + abs d) by (apply abs_sum; ring).
  assert (Hgoal : abs (X - (s + N * d))
                  ≤ abs (X - (s + N * q)) + N * abs (q - d)).
  { rewrite <- (Qcabs.Qcabs_pos N HN) at 3. rewrite <- Qcabs.Qcabs_Qcmult.
    apply abs_sum. ring. }
  revert He1 He2 Ha HD Hb Hgoal.
  generalize (abs (X - (s + N * d))) (abs (X - (s + N * q)))
             (abs (q - d)) (abs q) (abs s) (abs d).
  intros g e2 e1 b a D He1 He2 Ha HD Hb Hgoal.
  assert (HP1 : 0 ≤ P - 1) by (to_Q; lra).
  assert (HP0 : 0 ≤ P) by (to_Q; lra).
  assert (HNe1 : N * e1 ≤ N * (u * D)) by (by apply Qcmult_le_mono_nonneg_l).
  assert (HNb : N * b ≤ N * (u * D + D)).
  { apply Qcmult_le_mono_nonneg_l; [assumption|]. to_Q. lra. }
  assert (Hmid : (P - 1) * (a + N * b) ≤ (P - 1) * (a + N * (u * D + D))).
  { apply Qcmult_le_mono_nonneg_l; [assumption|]. to_Q. lra. }
  assert (Hslack : 0 ≤ a * (u * P)) by (by repeat apply Qcmult_nonneg_nonneg).
  assert (Hlast : (P - 1) * (a + N * (u * D + D)) + N * (u * D)
                  ≤ ((1 + u) * P - 1) * (a + N * D)).
  { apply (Qcle_by_difference _ _ _ Hslack). ring. }
  apply (Qcle_trans _ _ _ Hgoal).
  refine (Qcle_trans _ _ _ _ Hlast).
  to_Q. lra.
Qed.

(** The distance between two sums that are both near the exact sum. *)
Lemma rounded_gap (u A s x F X : Qc) :
  0 ≤ u →
  abs (F - (s + x)) ≤ u * abs (s + x) →
  abs (X - (s + x)) ≤ A * (abs s + abs x) →
  abs (X - F) ≤ (A + u) * (abs s + abs x).
Proof.
  intros Hu HF HX.
  pose proof (Qcabs.Qcabs_triangle s x) as Hc.
  assert (Hgoal : abs (X - F) ≤ abs (X - (s + x)) + abs ((s + x) - F))
    by (apply abs_sum; ring).
  rewrite (Qcabs.Qcabs_Qcminus (s + x) F) in Hgoal.
  assert (Huc : u * abs (s + x) ≤ u * (abs s + abs x))
    by (by apply Qcmult_le_mono_nonneg_l).
  revert HF HX Hgoal Huc.
  generalize (abs (X - F)) (abs (X - (s + x))) (abs (F - (s + x)))
             (u * abs (s + x)) (abs s + abs x).
  intros g e2 e1 uc M HF HX Hgoal Huc.
  replace ((A + u) * M) with (A * M + u * M) by ring.
  to_Q. lra.
Qed.

(** Two rounded additions, of [x] and then of [y]. *)
Lemma rounded_two (u s x y s1 s2 : Qc) :
  0 ≤ u →
  abs (s1 - (s + x)) ≤ u * abs (s + x) →
  abs (s2 - (s1 + y)) ≤ u * abs (s1 + y) →
  abs (s2 - (s + x + y)) ≤ ((1 + u) ^ 2 - 1) * (abs s + abs x + abs y).
Proof.
  intros Hu He1 He2.
  pose proof (Qcabs.Qcabs_nonneg y) as Hc.
  pose proof (Qcabs.Qcabs_triangle s x) as Hc1.
  pose proof (Qcabs.Qcabs_triangle s1 y) as Hc2.
  assert (Ht : abs s1 ≤ abs (s1 - (s + x)) + abs (s + x)) by (apply abs_sum; ring).
  assert (Hgoal : abs (s2 - (s + x + y))
                  ≤ abs (s2 - (s1 + y)) + abs (s1 - (s + x))) by (apply abs_sum; ring).
  revert He1 He2 Hc Hc1 Hc2 Ht Hgoal.
  generalize (abs (s2 - (s + x + y))) (abs (s2 - (s1 + y))) (abs (s1 - (s + x)))
             (abs (s1 + y)) (abs (s + x)) (abs s1) (abs s) (abs x) (abs y).
  intros g e2 e1 c2 c1 t a b c He1 He2 Hc Hc1 Hc2 Ht Hgoal.
  assert (Huc1 : u * c1 ≤ u * (a + b)) by (by apply Qcmult_le_mono_nonneg_l).
  assert (Huc2 : u * c2 ≤ u * (u * (a + b) + (a + b) + c)).
  { apply Qcmult_le_mono_nonneg_l; [assumption|]. to_Q. lra. }
  assert (Hslack : 0 ≤ u * c + u * (u * c)).
  { apply Qcplus_nonneg_nonneg; by repeat apply Qcmult_nonneg_nonneg. }
  assert (Hlast : u * (u * (a + b) + (a + b) + c) + u * (a + b)
                  ≤ ((1 + u) ^ 2 - 1) * (a + b + c)).
  { apply (Qcle_by_difference _ _ _ Hslack). cbn [Qcpower]. ring. }
  apply (Qcle_trans _ _ _ Hgoal).
  refine (Qcle_trans _ _ _ _ Hlast).
  to_Q. lra.
Qed.

(** The distance between two values that are both near [E]. *)
Lemma abs_gap (X Y E B : Qc) :
  abs (X - E) ≤ B → abs (Y - E) ≤ B → abs (X - Y) ≤ B + B.
Proof.
  intros HX HY.
  assert (Hgoal : abs (X - Y) ≤ abs (X - E) + abs (E - Y)) by (apply abs_sum; ring).
  rewrite (Qcabs.Qcabs_Qcminus E Y) in Hgoal.
  revert HX HY Hgoal. generalize (abs (X - Y)) (abs (X - E)) (abs (Y - E)).
  intros g e1 e2 HX HY Hgoal. to_Q. lra.
Qed.

Lemma one_le_power (x : Qc) (k : nat) : 1 ≤ x → 1 ≤ x ^ k.
Proof.
  intros Hx. induction k as [|k IH]; cbn [Qcpower]; [apply Qcle_refl|].
  assert (H0 : 0 ≤ x) by (to_Q; lra).
  assert (Hmul : x * 1 ≤ x * x ^ k) by (by apply Qcmult_le_mono_nonneg_l).
  refine (Qcle_trans _ _ _ Hx _). by rewrite Qcmult_1_r in Hmul.
Qed.

Section RoundedSums.

Context (u : Qc) (rnd : Qc → Qc) (Hstandard : Rounded.standard u rnd).

Lemma one_le_one_plus_unit : 1 ≤ 1 + u.
Proof. pose proof (Rounded.unit_nonneg u rnd Hstandard). to_Q. lra. Qed.

(** [k] rounded additions of [amount] to a sum stay within [k] relative
    errors of the magnitudes added. *)
Lemma sum_after_error (amount : Qc) (k : nat) (sum : Qc) :
  abs (Rounded.sum_after rnd amount k sum - (sum + Qc_of_Z (Z.of_nat k) * amount))
    ≤ ((1 + u) ^ k - 1) * (abs sum + Qc_of_Z (Z.of_nat k) * abs amount).
Proof.
  revert sum. induction k as [|k IH]; intros sum.
  - cbn [Rounded.sum_after Qcpower]. change (Z.of_nat 0) with 0%Z. rewrite Z2Qc_inj_0.
    replace (sum - (sum + 0 * amount)) with 0 by ring.
    replace ((1 - 1) * (abs sum + 0 * abs amount)) with 0 by ring.
    rewrite Qcabs.Qcabs_pos; apply Qcle_refl.
  - cbn [Rounded.sum_after Qcpower]. unfold Rounded.inc.
    assert (HK : 0 ≤ Qc_of_Z (Z.of_nat k)).
    { pose proof (proj1 (Z2Qc_inj_le 0 (Z.of_nat k)) (Nat2Z.is_nonneg k)) as Hle.
      by rewrite Z2Qc_inj_0 in Hle. }
    rewrite Nat2Z.inj_succ. unfold Z.succ. rewrite Z2Qc_inj_add, Z2Qc_inj_1.
    apply (rounded_step u _ _ amount sum (rnd (sum + amount))).
    + apply (Rounded.unit_nonneg u rnd Hstandard).
    + apply one_le_power, one_le_one_plus_unit.
    + assumption.
    + apply (Rounded.rnd_error u rnd Hstandard).
    + apply IH.
Qed.

End RoundedSums.

Section RoundedCalls.

Context (rnd : Qc → Qc).

Lemma rounded_scan_list_find (x amount : Qc) (upper_bounds : list bound) (i : nat)
    (buckets : list Qc) :
  Rounded.scan rnd x amount i upper_bounds buckets =
    match list_find (λ bound, float_le x bound = true) upper_bounds with
    | Some (j, _) =>
        match buckets !! (i + j)%nat with
        | Some value => (Returned tt, <[(i + j)%nat := rnd (value + amount)]> buckets)
        | None => (Raised IndexError, buckets)
        end
    | None => (Returned tt, buckets)
    end.
Proof.
  revert i. induction upper_bounds as [|bound rest IH]; intros i; simpl; [reflexivity|].
  destruct (float_le x bound) eqn:Hle.
  - rewrite decide_True by reflexivity. simpl. rewrite Nat.add_0_r. reflexivity.
  - rewrite decide_False by discriminate. rewrite IH.
    destruct (list_find _ rest) as [[j b]|]; simpl; [|reflexivity].
    replace (i + S j)%nat with (S (i + j)) by lia. reflexivity.
Qed.

(** A rounded run on a state of the library's shape, in closed form: the
    sum takes [sum_amount], the first bucket not below [x] takes
    [bucket_amount]. *)
Lemma rounded_run (x sum_amount bucket_amount : Qc) (his : HistogramChild) :
  Inf ∈ _upper_bounds his →
  wf_child his →
  ∃ i bound value,
    list_find (λ b, float_le x b = true) (_upper_bounds his) = Some (i, bound) ∧
    _buckets his !! i = Some value ∧
    (on _sum_ (modify (Rounded.inc rnd sum_amount));;
     self ← get;
     on _buckets_ (Rounded.scan rnd x bucket_amount 0 (_upper_bounds self))) his =
      (Returned tt,
       MkChild (rnd (_sum his + sum_amount)) (_upper_bounds his)
               (<[i := rnd (value + bucket_amount)]> (_buckets his))).
Proof.
  intros Hinf Hlen.
  destruct (first_bucket_exists x (_upper_bounds his) Hinf) as (i & bound & Hfind).
  pose proof Hfind as (Hi & _)%list_find_Some.
  destruct (lookup_lt_is_Some_2 (_buckets his) i) as [value Hvalue].
  { rewrite Hlen. eapply lookup_lt_Some, Hi. }
  exists i, bound, value. split_and!; try assumption.
  unfold mbind, M_bind, bind, on, modify, get, Rounded.inc. simpl.
  rewrite rounded_scan_list_find, Hfind. cbn [Nat.add]. by rewrite Hvalue.
Qed.

Lemma rounded_log_histogram_eq (histogram : attr t Histogram) (data : Qc) (self : t) :
  Rounded._log_histogram rnd histogram data self =
    (fst (Rounded.observe rnd data (state_of histogram self)),
     setattr histogram
       (Histogram_store (labelvalues (labels self))
          (snd (Rounded.observe rnd data (state_of histogram self)))
          (getattr histogram self)) self).
Proof.
  unfold Rounded._log_histogram, mbind, M_bind, bind, get. apply on_Histogram_labels.
Qed.

Lemma rounded_observe_inter_token_latency_eq (internval : Qc) (num_new_tokens : Z) (self : t) :
  num_new_tokens ≠ 0%Z →
  Rounded.observe_inter_token_latency rnd internval num_new_tokens self =
    (fst (Rounded.fast_observe rnd (rnd (internval / Rounded.float rnd num_new_tokens))
            internval num_new_tokens (inter_token_latency self)),
     store_inter_token_latency self
       (snd (Rounded.fast_observe rnd (rnd (internval / Rounded.float rnd num_new_tokens))
               internval num_new_tokens (inter_token_latency self)))).
Proof.
  intros Hn. unfold Rounded.observe_inter_token_latency, Rounded.truediv.
  destruct (Z.eqb_spec num_new_tokens 0) as [|_]; [contradiction|].
  unfold mbind, M_bind, bind, lift, get. apply on_Histogram_labels.
Qed.

End RoundedCalls.

(** The rounded scan with nothing rounded is the scan. *)
Lemma rounded_scan_exact (x amount : Qc) (upper_bounds : list bound) (i : nat)
    (buckets : list Qc) :
  Rounded.scan (λ r, r) x amount i upper_bounds buckets = scan x amount i upper_bounds buckets.
Proof. by rewrite rounded_scan_list_find, scan_list_find. Qed.

(** With nothing rounded the rounded calls are the calls of the embedding. *)
Lemma rounded_exact (self : t) (internval : Qc) (num_new_tokens : Z)
    (histogram : attr t Histogram) (data : Qc) :
  Rounded.observe_inter_token_latency (λ r, r) internval num_new_tokens self
    = observe_inter_token_latency internval num_new_tokens self ∧
  Rounded._log_histogram (λ r, r) histogram data self = _log_histogram histogram data self.
Proof.
  split.
  - unfold Rounded.observe_inter_token_latency, observe_inter_token_latency,
      Rounded.truediv, truediv, mbind, M_bind, bind, lift, get.
    destruct (num_new_tokens =? 0)%Z; [reflexivity|].
    rewrite !on_Histogram_labels.
    unfold Rounded.fast_observe, fast_observe, mbind, M_bind, bind, on, modify, get. simpl.
    by rewrite rounded_scan_exact.
  - unfold Rounded._log_histogram, _log_histogram, mbind, M_bind, bind, get.
    rewrite !on_Histogram_labels.
    unfold Rounded.observe, observe, mbind, M_bind, bind, on, modify, get. simpl.
    rewrite rounded_scan_exact. unfold Rounded.float. by rewrite Z2Qc_inj_1.
Qed.

Section RoundedRepeat.

Context (u : Qc) (rnd : Qc → Qc) (Hstandard : Rounded.standard u rnd).

(** Counting by one is exact below 2^53. *)
Lemma rounded_count (m n : Z) :
  (0 ≤ m ∧ 0 ≤ n ∧ m + n ≤ Rounded.exact_int_bound)%Z →
  rnd (Qc_of_Z m + Rounded.float rnd n) = Qc_of_Z (m + n).
Proof.
  intros Hm. unfold Rounded.float.
  rewrite (Rounded.rnd_int u rnd Hstandard n) by (unfold Rounded.exact_int_bound in *; lia).
  rewrite <- Z2Qc_inj_add.
  apply (Rounded.rnd_int u rnd Hstandard). unfold Rounded.exact_int_bound in *. lia.
Qed.

(** [k] rounded single samples of [amount], started from a stored state:
    the counter of the bucket of [amount] counts [k] more, exactly, and the
    sum has taken [k] rounded additions. *)
Lemma rounded_repeat_single_samples (self : t) (amount : Qc) (i : nat) (bound : bound)
    (k : nat) :
  wf_histogram (histogram_inter_token_latency_seconds self) →
  ∀ (his : HistogramChild) (m : Z),
    _upper_bounds his = _upper_bounds (inter_token_latency self) →
    wf_child his →
    list_find (λ b, float_le amount b = true) (_upper_bounds his) = Some (i, bound) →
    _buckets his !! i = Some (Qc_of_Z m) →
    (0 ≤ m ∧ m + Z.of_nat k ≤ Rounded.exact_int_bound)%Z →
    repeat_call k (Rounded._log_histogram rnd histogram_inter_token_latency_seconds_ amount)
                (store_inter_token_latency self his) =
      (Returned tt,
       store_inter_token_latency self
         (MkChild (Rounded.sum_after rnd amount k (_sum his)) (_upper_bounds his)
                  (<[i := Qc_of_Z (m + Z.of_nat k)]> (_buckets his)))).
Proof.
  intros Hwf. induction k as [|k IH]; intros his m Hub Hlen Hfind Hvalue Hm.
  - cbn [repeat_call Rounded.sum_after]. unfold mret, M_ret, ret. do 3 f_equal.
    destruct his as [sum upper_bounds buckets]. cbn [_sum _upper_bounds _buckets] in *.
    f_equal. symmetry. apply list_insert_id. rewrite Hvalue. do 2 f_equal. lia.
  - cbn [repeat_call Rounded.sum_after]. unfold mbind, M_bind, bind.
    rewrite rounded_log_histogram_eq, state_of_store.
    assert (Hinf : Inf ∈ _upper_bounds his).
    { rewrite Hub, (proj1 (wf_inter_token_latency self Hwf)). apply Hwf. }
    destruct (rounded_run rnd amount amount (Rounded.float rnd 1) his Hinf Hlen)
      as (i' & bound' & value' & Hfind' & Hvalue' & Hrun).
    rewrite Hfind in Hfind'. injection Hfind' as <- <-.
    rewrite Hvalue in Hvalue'. injection Hvalue' as <-.
    unfold Rounded.observe. rewrite Hrun. cbn [fst snd].
    rewrite rounded_count by (unfold Rounded.exact_int_bound in *; lia).
    match goal with
    | |- context [Histogram_store ?key ?his1 (getattr _ (store_inter_token_latency self his))] =>
        change (setattr histogram_inter_token_latency_seconds_
                  (Histogram_store key his1
                     (getattr histogram_inter_token_latency_seconds_
                        (store_inter_token_latency self his)))
                  (store_inter_token_latency self his))
          with (store_inter_token_latency (store_inter_token_latency self his) his1)
    end.
    rewrite store_store_inter_token_latency.
    rewrite (IH _ (m + 1)%Z); cbn [_sum _upper_bounds _buckets]; try assumption.
    + do 3 f_equal. unfold Rounded.inc. apply MkChild_eq; [reflexivity|].
      rewrite list_insert_insert_eq. do 2 f_equal. lia.
    + unfold wf_child in *. cbn [_buckets _upper_bounds]. by rewrite length_insert.
    + apply list_lookup_insert_eq. eapply lookup_lt_Some, Hvalue.
    + lia.
Qed.

(** A rounded call on counters that are counts, in closed form. *)
Lemma rounded_call_run (self : t) (internval : Qc) (num_new_tokens : Z) :
  wf_histogram (histogram_inter_token_latency_seconds self) →
  (1 ≤ num_new_tokens)%Z →
  Forall (Rounded.counts_below num_new_tokens) (_buckets (inter_token_latency self)) →
  ∃ i bound m,
    list_find (λ b, float_le (rnd (internval / Rounded.float rnd num_new_tokens)) b = true)
              (_upper_bounds (inter_token_latency self)) = Some (i, bound) ∧
    _buckets (inter_token_latency self) !! i = Some (Qc_of_Z m) ∧
    Rounded.observe_inter_token_latency rnd internval num_new_tokens self =
      (Returned tt,
       store_inter_token_latency self
         (MkChild (rnd (_sum (inter_token_latency self) + internval))
                  (_upper_bounds (inter_token_latency self))
                  (<[i := Qc_of_Z (m + num_new_tokens)]> (_buckets (inter_token_latency self))))).
Proof.
  intros Hwf Hn Hcounts.
  destruct (wf_inter_token_latency self Hwf) as [Hub Hlen].
  assert (Hinf : Inf ∈ _upper_bounds (inter_token_latency self)) by (rewrite Hub; apply Hwf).
  destruct (rounded_run rnd (rnd (internval / Rounded.float rnd num_new_tokens)) internval
              (Rounded.float rnd num_new_tokens) _ Hinf Hlen)
    as (i & bound & value & Hfind & Hvalue & Hrun).
  destruct (proj1 (Forall_lookup _ _) Hcounts i value Hvalue) as (m & -> & Hm).
  exists i, bound, m. split_and!; try assumption.
  rewrite rounded_observe_inter_token_latency_eq by lia.
  unfold Rounded.fast_observe. rewrite Hrun. cbn [fst snd].
  by rewrite rounded_count by lia.
Qed.

End RoundedRepeat.

Lemma counts_below_fewer (n1 n2 : Z) (buckets : list Qc) :
  (0 ≤ n1)%Z →
  Forall (Rounded.counts_below (n1 + n2)) buckets →
  Forall (Rounded.counts_below n2) buckets.
Proof.
  intros Hn1. apply Forall_impl. intros value (k & -> & Hk). exists k. split; [reflexivity|lia].
Qed.

(** After [n1] is added to a counter, there is room for [n2] more in every
    counter that had room for both. *)
Lemma counts_below_insert (n1 n2 : Z) (buckets : list Qc) (i : nat) (m : Z) :
  (0 ≤ n1)%Z →
  Forall (Rounded.counts_below (n1 + n2)) buckets →
  buckets !! i = Some (Qc_of_Z m) →
  Forall (Rounded.counts_below n2) (<[i := Qc_of_Z (m + n1)]> buckets).
Proof.
  intros Hn1 Hcounts Hm. apply Forall_lookup. intros j value Hj.
  destruct (decide (i = j)) as [<-|Hne].
  - rewrite list_lookup_insert_eq in Hj by (eapply lookup_lt_Some, Hm).
    injection Hj as <-.
    destruct (proj1 (Forall_lookup _ _) Hcounts i _ Hm) as (k & Heq & Hk).
    apply Z2Qc_inj in Heq as ->. exists (k + n1)%Z. split; [reflexivity|lia].
  - rewrite list_lookup_insert_ne in Hj by assumption.
    destruct (proj1 (Forall_lookup _ _) Hcounts j value Hj) as (k & -> & Hk).
    exists k. split; [reflexivity|lia].
Qed.

(** C4.  One call of [observe_inter_token_latency] with [num_new_tokens]
    at least 1 against [num_new_tokens] single-sample observations of the
    quotient the call computes, with every arithmetic result rounded and
    the counters holding counts that leave room for [num_new_tokens] more.
    Both return normally.  Both add [num_new_tokens] to the counter of the
    same bucket, the first whose bound is not below the quotient, exactly,
    and touch no other counter; the states they leave differ in the sum
    alone.  The call adds the raw interval once: its sum is the exact sum
    [_sum his + internval] rounded once.  The single samples add the
    quotient [num_new_tokens] times: their sum is within
    [num_new_tokens + 1] roundings of the same exact sum, and so within
    that and one more rounding of the sum of the call.  With nothing
    rounded the calls are [observe_inter_token_latency] and
    [_log_histogram] themselves. *)
Theorem observe_inter_token_latency_matches_single_samples :
  (∀ (u : Qc) (rnd : Qc → Qc) (self : t) (internval : Qc) (num_new_tokens : Z),
     Rounded.standard u rnd →
     (1 ≤ num_new_tokens)%Z →
     wf_histogram (histogram_inter_token_latency_seconds self) →
     Forall (Rounded.counts_below num_new_tokens) (_buckets (inter_token_latency self)) →
     let his := inter_token_latency self in
     let adjusted_interval := rnd (internval / Rounded.float rnd num_new_tokens) in
     let fast := Rounded.observe_inter_token_latency rnd internval num_new_tokens self in
     let slow :=
       repeat_call (Z.to_nat num_new_tokens)
         (Rounded._log_histogram rnd histogram_inter_token_latency_seconds_ adjusted_interval)
         self in
     let his_fast := inter_token_latency (snd fast) in
     let his_slow := inter_token_latency (snd slow) in
     let exact := _sum his + internval in
     let roundings := S (Z.to_nat num_new_tokens) in
     fst fast = Returned tt ∧
     fst slow = Returned tt ∧
     (∃ i bound value,
        _upper_bounds his !! i = Some bound ∧
        float_le adjusted_interval bound = true ∧
        (∀ j b, (j < i)%nat → _upper_bounds his !! j = Some b →
                float_le adjusted_interval b = false) ∧
        _buckets his !! i = Some value ∧
        _buckets his_fast = <[i := value + Qc_of_Z num_new_tokens]> (_buckets his) ∧
        _buckets his_slow = <[i := value + Qc_of_Z num_new_tokens]> (_buckets his)) ∧
     _upper_bounds his_fast = _upper_bounds his ∧
     snd slow =
       store_inter_token_latency (snd fast)
         (MkChild (_sum his_slow) (_upper_bounds his_fast) (_buckets his_fast)) ∧
     _sum his_fast = rnd exact ∧
     abs (_sum his_fast - exact) ≤ u * abs exact ∧
     abs (_sum his_slow - exact)
       ≤ ((1 + u) ^ roundings - 1) * (abs (_sum his) + abs internval) ∧
     abs (_sum his_slow - _sum his_fast)
       ≤ ((1 + u) ^ roundings - 1 + u) * (abs (_sum his) + abs internval)) ∧
  (∀ (self : t) (internval : Qc) (num_new_tokens : Z) (data : Qc),
     Rounded.observe_inter_token_latency (λ r, r) internval num_new_tokens self
       = observe_inter_token_latency internval num_new_tokens self ∧
     Rounded._log_histogram (λ r, r) histogram_inter_token_latency_seconds_ data self
       = _log_histogram histogram_inter_token_latency_seconds_ data self).
Proof.
  split; [|intros; apply rounded_exact].
  intros u rnd self internval num_new_tokens Hstandard Hn Hwf Hcounts
         his adjusted_interval fast slow his_fast his_slow exact roundings.
  destruct (wf_inter_token_latency self Hwf) as [Hub Hlen]. fold his in Hub, Hlen, Hcounts.
  assert (Hinf : Inf ∈ _upper_bounds his) by (rewrite Hub; apply Hwf).
  (* the fast path *)
  destruct (rounded_run rnd adjusted_interval internval (Rounded.float rnd num_new_tokens)
              his Hinf Hlen) as (i & bound & value & Hfind & Hvalue & Hrun).
  destruct (proj1 (Forall_lookup _ _) Hcounts i value Hvalue) as (m & -> & Hm).
  assert (Hfast : fast = (Returned tt,
            store_inter_token_latency self
              (MkChild (rnd exact) (_upper_bounds his)
                       (<[i := Qc_of_Z (m + num_new_tokens)]> (_buckets his))))).
  { unfold fast. rewrite rounded_observe_inter_token_latency_eq by lia.
    fold his adjusted_interval. unfold Rounded.fast_observe. rewrite Hrun. cbn [fst snd].
    by rewrite (rounded_count u rnd Hstandard) by lia. }
  (* the single samples *)
  subst roundings.
  destruct (Z.to_nat num_new_tokens) as [|k] eqn:Hk; [lia|].
  destruct (rounded_run rnd adjusted_interval adjusted_interval (Rounded.float rnd 1)
              his Hinf Hlen) as (i' & bound' & value' & Hfind' & Hvalue' & Hrun').
  rewrite Hfind in Hfind'. injection Hfind' as <- <-.
  rewrite Hvalue in Hvalue'. injection Hvalue' as <-.
  assert (Hslow : slow = (Returned tt,
            store_inter_token_latency self
              (MkChild (Rounded.sum_after rnd adjusted_interval (S k) (_sum his))
                       (_upper_bounds his)
                       (<[i := Qc_of_Z (m + num_new_tokens)]> (_buckets his))))).
  { unfold slow. cbn [repeat_call]. unfold mbind, M_bind, bind.
    rewrite rounded_log_histogram_eq. fold his. unfold Rounded.observe. rewrite Hrun'.
    cbn [fst snd]. rewrite (rounded_count u rnd Hstandard) by lia.
    change (setattr histogram_inter_token_latency_seconds_
              (Histogram_store (labelvalues (labels self)) ?h
                 (getattr histogram_inter_token_latency_seconds_ self)) self)
      with (store_inter_token_latency self h).
    rewrite (rounded_repeat_single_samples u rnd Hstandard self adjusted_interval i bound k
               Hwf _ (m + 1)%Z); cbn [_sum _upper_bounds _buckets]; try done.
    - do 3 f_equal. apply MkChild_eq; [reflexivity|].
      rewrite list_insert_insert_eq. do 2 f_equal. lia.
    - unfold wf_child in *. cbn [_buckets _upper_bounds]. by rewrite length_insert.
    - apply list_lookup_insert_eq. eapply lookup_lt_Some, Hvalue.
    - lia. }
  (* the quotient *)
  assert (HN : Rounded.float rnd num_new_tokens = Qc_of_Z num_new_tokens).
  { apply (Rounded.rnd_int u rnd Hstandard). unfold Rounded.exact_int_bound in *. lia. }
  assert (HNpos : 0 < Qc_of_Z num_new_tokens).
  { pose proof (proj1 (Z2Qc_inj_lt 0 num_new_tokens) ltac:(lia)) as Hlt.
    by rewrite Z2Qc_inj_0 in Hlt. }
  set (d := internval / Qc_of_Z num_new_tokens).
  assert (Hx : internval = Qc_of_Z num_new_tokens * d).
  { unfold d. rewrite Qcmult_div_r; [reflexivity|].
    intros Heq. rewrite Heq in HNpos. by apply Qclt_not_le in HNpos; apply HNpos, Qcle_refl. }
  assert (Hq : adjusted_interval = rnd d) by (unfold adjusted_interval; by rewrite HN).
  pose proof (Rounded.unit_nonneg u rnd Hstandard) as Hu.
  pose proof (sum_after_error u rnd Hstandard adjusted_interval (S k) (_sum his)) as Hsums.
  replace (Z.of_nat (S k)) with num_new_tokens in Hsums by lia.
  assert (Hslow_sum :
    abs (Rounded.sum_after rnd adjusted_interval (S k) (_sum his) - exact)
      ≤ ((1 + u) ^ S (S k) - 1) * (abs (_sum his) + abs internval)).
  { change ((1 + u) ^ S (S k)) with ((1 + u) * (1 + u) ^ S k).
    apply (rounded_final u _ (Qc_of_Z num_new_tokens) adjusted_interval d); try assumption.
    - apply one_le_power, (one_le_one_plus_unit u rnd Hstandard).
    - by apply Qclt_le_weak.
    - rewrite Hq. apply (Rounded.rnd_error u rnd Hstandard). }
  (* together *)
  unfold his_fast, his_slow. rewrite Hfast, Hslow. cbn [fst snd].
  rewrite !state_of_store. cbn [_sum _upper_bounds _buckets].
  rewrite store_store_inter_token_latency, Z2Qc_inj_add.
  split_and!; try reflexivity.
  - apply list_find_Some in Hfind as (Hi & Hle & Hfirst).
    exists i, bound, (Qc_of_Z m). split_and!; try done.
    intros j b Hj Hb. apply not_true_iff_false. exact (Hfirst j b Hb Hj).
  - apply (Rounded.rnd_error u rnd Hstandard).
  - exact Hslow_sum.
  - apply rounded_gap; [assumption | | exact Hslow_sum].
    apply (Rounded.rnd_error u rnd Hstandard).
Qed.

(** The example rounding is a rounding, with [u] one eighth. *)
Lemma coarse_standard : Rounded.standard (lit (1 # 8)) Examples.coarse.
Proof.
  assert (Hu : 0 ≤ lit (1 # 8)) by (unfold Qcle; vm_compute; discriminate).
  split.
  - exact Hu.
  - intros x. unfold Examples.coarse. destruct (Qden (this x) =? 1)%positive.
    + replace (x - x) with 0 by ring. rewrite (Qcabs.Qcabs_pos 0) by apply Qcle_refl.
      apply Qcmult_nonneg_nonneg; [exact Hu | apply Qcabs.Qcabs_nonneg].
    + replace (x + x * lit (1 # 8) - x) with (lit (1 # 8) * x) by ring.
      rewrite Qcabs.Qcabs_Qcmult, (Qcabs.Qcabs_pos _ Hu). apply Qcle_refl.
  - intros k _. reflexivity.
Qed.

(** The counters of the example collector are counts, all zero. *)
Lemma small_counts_below :
  Forall (Rounded.counts_below 3) (_buckets (inter_token_latency Examples.small)).
Proof.
  assert (Hzero : Rounded.counts_below 3 (Q2Qc 0)).
  { exists 0%Z. split; [by_evaluation | unfold Rounded.exact_int_bound; lia]. }
  assert (Hbuckets : _buckets (inter_token_latency Examples.small)
                     = [Q2Qc 0; Q2Qc 0; Q2Qc 0; Q2Qc 0]) by by_evaluation.
  rewrite Hbuckets. repeat constructor; exact Hzero.
Qed.

(** C4 at the example rounding and the call (1.0, 3): the quotient 1/3 is
    rounded to 3/8. *)
Lemma observe_inter_token_latency_matches_single_samples_witness :
  let his := inter_token_latency Examples.small in
  let fast := Rounded.observe_inter_token_latency Examples.coarse 1 3 Examples.small in
  let slow :=
    repeat_call (Z.to_nat 3)
      (Rounded._log_histogram Examples.coarse histogram_inter_token_latency_seconds_
         (Examples.coarse (1 / Rounded.float Examples.coarse 3)))
      Examples.small in
  _buckets (inter_token_latency (snd slow)) = _buckets (inter_token_latency (snd fast)) ∧
  abs (_sum (inter_token_latency (snd slow)) - _sum (inter_token_latency (snd fast)))
    ≤ ((1 + lit (1 # 8)) ^ S (Z.to_nat 3) - 1 + lit (1 # 8)) * (abs (_sum his) + abs 1).
Proof.
  assert (Hn : (1 ≤ 3)%Z) by lia.
  destruct (proj1 observe_inter_token_latency_matches_single_samples
              (lit (1 # 8)) Examples.coarse Examples.small 1 3%Z
              coarse_standard Hn small_inter_token_latency_wf small_counts_below)
    as (_ & _ & (i & bound & value & _ & _ & _ & _ & Hfast & Hslow) & _ & _ & _ & _ & _ & Hgap).
  split.
  - exact (eq_trans Hslow (eq_sym Hfast)).
  - exact Hgap.
Defined.

(** At the example rounding the two sums are not the same number: the call
    leaves 1, the three single samples leave 5859/4096. *)
Lemma rounded_sums_differ :
  _sum (inter_token_latency
          (snd (Rounded.observe_inter_token_latency Examples.coarse 1 3 Examples.small)))
    = 1 ∧
  _sum (inter_token_latency
          (snd (repeat_call 3
                  (Rounded._log_histogram Examples.coarse
                     histogram_inter_token_latency_seconds_
                     (Examples.coarse (1 / Rounded.float Examples.coarse 3)))
                  Examples.small)))
    = lit (5859 # 4096).
Proof. split; by_evaluation. Qed.

(** * Two calls in either order, with rounding *)

(** The second of two rounded calls, in closed form. *)
Lemma rounded_second_call (u : Qc) (rnd : Qc → Qc) (self : t)
    (x1 : Qc) (n1 : Z) (x2 : Qc) (n2 : Z) (i1 : nat) (m1 : Z) (i2 : nat) (b2 : bound) (m2 : Z) :
  Rounded.standard u rnd →
  wf_histogram (histogram_inter_token_latency_seconds self) →
  (1 ≤ n1)%Z → (1 ≤ n2)%Z →
  Forall (Rounded.counts_below (n1 + n2)) (_buckets (inter_token_latency self)) →
  _buckets (inter_token_latency self) !! i1 = Some (Qc_of_Z m1) →
  list_find (λ b, float_le (rnd (x2 / Rounded.float rnd n2)) b = true)
            (_upper_bounds (inter_token_latency self)) = Some (i2, b2) →
  _buckets (inter_token_latency self) !! i2 = Some (Qc_of_Z m2) →
  Rounded.observe_inter_token_latency rnd x2 n2
    (store_inter_token_latency self
       (MkChild (rnd (_sum (inter_token_latency self) + x1))
                (_upper_bounds (inter_token_latency self))
                (<[i1 := Qc_of_Z (m1 + n1)]> (_buckets (inter_token_latency self))))) =
    (Returned tt,
     store_inter_token_latency self
       (MkChild (rnd (rnd (_sum (inter_token_latency self) + x1) + x2))
                (_upper_bounds (inter_token_latency self))
                (<[i2 := Qc_of_Z ((if decide (i1 = i2) then m1 + n1 else m2) + n2)]>
                   (<[i1 := Qc_of_Z (m1 + n1)]> (_buckets (inter_token_latency self)))))).
Proof.
  intros Hstandard Hwf Hn1 Hn2 Hcounts Hm1 Hfind2 Hm2.
  set (his := inter_token_latency self) in *.
  set (his1 := MkChild (rnd (_sum his + x1)) (_upper_bounds his)
                       (<[i1 := Qc_of_Z (m1 + n1)]> (_buckets his))).
  destruct (wf_inter_token_latency self Hwf) as [Hub Hlen]. fold his in Hub, Hlen.
  assert (Hlen1 : wf_child his1).
  { unfold wf_child in *. cbn [his1 _buckets _upper_bounds]. by rewrite length_insert. }
  assert (Hwf1 : wf_histogram
                   (histogram_inter_token_latency_seconds (store_inter_token_latency self his1)))
    by (by apply wf_store_inter_token_latency).
  assert (Hcounts1 : Forall (Rounded.counts_below n2)
                       (_buckets (inter_token_latency (store_inter_token_latency self his1)))).
  { rewrite state_of_store. cbn [his1 _buckets].
    apply (counts_below_insert n1 n2); [lia | assumption..]. }
  destruct (rounded_call_run u rnd Hstandard _ x2 n2 Hwf1 Hn2 Hcounts1)
    as (i & bound & m & Hfind & Hm & Hrun).
  rewrite state_of_store in Hfind, Hm, Hrun. cbn [his1 _sum _upper_bounds _buckets] in Hfind, Hm, Hrun.
  rewrite Hfind2 in Hfind. injection Hfind as <- <-.
  rewrite Hrun, store_store_inter_token_latency. do 3 f_equal.
  destruct (decide (i1 = i2)) as [<-|Hne].
  - rewrite list_lookup_insert_eq in Hm by (eapply lookup_lt_Some, Hm1).
    assert (Heq : Qc_of_Z (m1 + n1) = Qc_of_Z m) by congruence.
    by apply Z2Qc_inj in Heq as <-.
  - rewrite list_lookup_insert_ne in Hm by assumption.
    assert (Heq : Qc_of_Z m2 = Qc_of_Z m) by congruence.
    by apply Z2Qc_inj in Heq as <-.
Qed.

(** X3.  Two calls of [observe_inter_token_latency], each with at least
    one new token, in either order, with every arithmetic result rounded
    and counters holding counts that leave room for both.  Both orders
    return normally and leave the same counters; the collectors they leave
    differ in the sum alone.  The sum has taken the two raw intervals in
    the order of the calls, one rounding each, and the two sums are within
    two roundings of the exact sum. *)
Theorem observe_inter_token_latency_either_order
    (u : Qc) (rnd : Qc → Qc) (self : t) (x1 : Qc) (n1 : Z) (x2 : Qc) (n2 : Z) :
  Rounded.standard u rnd →
  (1 ≤ n1)%Z → (1 ≤ n2)%Z →
  wf_histogram (histogram_inter_token_latency_seconds self) →
  Forall (Rounded.counts_below (n1 + n2)) (_buckets (inter_token_latency self)) →
  let his := inter_token_latency self in
  let one := Rounded.observe_inter_token_latency rnd x2 n2
               (snd (Rounded.observe_inter_token_latency rnd x1 n1 self)) in
  let other := Rounded.observe_inter_token_latency rnd x1 n1
                 (snd (Rounded.observe_inter_token_latency rnd x2 n2 self)) in
  let his_one := inter_token_latency (snd one) in
  let his_other := inter_token_latency (snd other) in
  fst one = Returned tt ∧
  fst other = Returned tt ∧
  _buckets his_one = _buckets his_other ∧
  _upper_bounds his_one = _upper_bounds his_other ∧
  snd one =
    store_inter_token_latency (snd other)
      (MkChild (_sum his_one) (_upper_bounds his_other) (_buckets his_other)) ∧
  _sum his_one = rnd (rnd (_sum his + x1) + x2) ∧
  _sum his_other = rnd (rnd (_sum his + x2) + x1) ∧
  abs (_sum his_one - (_sum his + x1 + x2))
    ≤ ((1 + u) ^ 2 - 1) * (abs (_sum his) + abs x1 + abs x2) ∧
  abs (_sum his_other - (_sum his + x1 + x2))
    ≤ ((1 + u) ^ 2 - 1) * (abs (_sum his) + abs x1 + abs x2) ∧
  abs (_sum his_one - _sum his_other)
    ≤ ((1 + u) ^ 2 - 1) * (abs (_sum his) + abs x1 + abs x2)
      + ((1 + u) ^ 2 - 1) * (abs (_sum his) + abs x1 + abs x2).
Proof.
  intros Hstandard Hn1 Hn2 Hwf Hcounts his one other his_one his_other.
  assert (Hcounts' : Forall (Rounded.counts_below (n2 + n1)) (_buckets his))
    by (by rewrite Z.add_comm).
  destruct (rounded_call_run u rnd Hstandard self x1 n1 Hwf Hn1)
    as (i1 & b1 & m1 & Hfind1 & Hm1 & Hrun1).
  { apply (counts_below_fewer n2 n1); [lia | assumption]. }
  destruct (rounded_call_run u rnd Hstandard self x2 n2 Hwf Hn2)
    as (i2 & b2 & m2 & Hfind2 & Hm2 & Hrun2).
  { apply (counts_below_fewer n1 n2); [lia | assumption]. }
  fold his in Hfind1, Hm1, Hrun1, Hfind2, Hm2, Hrun2.
  assert (Hone : one = (Returned tt,
            store_inter_token_latency self
              (MkChild (rnd (rnd (_sum his + x1) + x2)) (_upper_bounds his)
                 (<[i2 := Qc_of_Z ((if decide (i1 = i2) then m1 + n1 else m2) + n2)]>
                    (<[i1 := Qc_of_Z (m1 + n1)]> (_buckets his)))))).
  { unfold one. rewrite Hrun1. cbn [snd].
    by apply (rounded_second_call u rnd self x1 n1 x2 n2 i1 m1 i2 b2 m2). }
  assert (Hother : other = (Returned tt,
            store_inter_token_latency self
              (MkChild (rnd (rnd (_sum his + x2) + x1)) (_upper_bounds his)
                 (<[i1 := Qc_of_Z ((if decide (i2 = i1) then m2 + n2 else m1) + n1)]>
                    (<[i2 := Qc_of_Z (m2 + n2)]> (_buckets his)))))).
  { unfold other. rewrite Hrun2. cbn [snd].
    by apply (rounded_second_call u rnd self x2 n2 x1 n1 i2 m2 i1 b1 m1). }
  assert (Hbuckets :
    <[i2 := Qc_of_Z ((if decide (i1 = i2) then m1 + n1 else m2) + n2)]>
      (<[i1 := Qc_of_Z (m1 + n1)]> (_buckets his))
    = <[i1 := Qc_of_Z ((if decide (i2 = i1) then m2 + n2 else m1) + n1)]>
        (<[i2 := Qc_of_Z (m2 + n2)]> (_buckets his))).
  { destruct (decide (i1 = i2)) as [<-|Hne].
    - rewrite decide_True by reflexivity.
      assert (Heq : Qc_of_Z m1 = Qc_of_Z m2) by congruence.
      apply Z2Qc_inj in Heq as <-.
      rewrite !list_insert_insert_eq. do 2 f_equal. lia.
    - rewrite decide_False by congruence. by apply list_insert_insert_ne. }
  pose proof (Rounded.unit_nonneg u rnd Hstandard) as Hu.
  unfold his_one, his_other. rewrite Hone, Hother. cbn [fst snd].
  rewrite !state_of_store. cbn [_sum _upper_bounds _buckets].
  rewrite store_store_inter_token_latency, Hbuckets.
  assert (Hsum_one :
    abs (rnd (rnd (_sum his + x1) + x2) - (_sum his + x1 + x2))
      ≤ ((1 + u) ^ 2 - 1) * (abs (_sum his) + abs x1 + abs x2)).
  { apply (rounded_two u _ _ _ (rnd (_sum his + x1))); [assumption | |];
      apply (Rounded.rnd_error u rnd Hstandard). }
  assert (Hsum_other :
    abs (rnd (rnd (_sum his + x2) + x1) - (_sum his + x1 + x2))
      ≤ ((1 + u) ^ 2 - 1) * (abs (_sum his) + abs x1 + abs x2)).
  { replace (_sum his + x1 + x2) with (_sum his + x2 + x1) by ring.
    replace (abs (_sum his) + abs x1 + abs x2) with (abs (_sum his) + abs x2 + abs x1) by ring.
    apply (rounded_two u _ _ _ (rnd (_sum his + x2))); [assumption | |];
      apply (Rounded.rnd_error u rnd Hstandard). }
  split_and!; try reflexivity; try assumption.
  by apply (abs_gap _ _ (_sum his + x1 + x2)).
Qed.

(** X3 at the example rounding and the calls (0.5, 1) and (3.0, 2). *)
Lemma observe_inter_token_latency_either_order_witness :
  let one := Rounded.observe_inter_token_latency Examples.coarse (lit 3) 2
               (snd (Rounded.observe_inter_token_latency Examples.coarse (lit 0.5) 1
                       Examples.small)) in
  let other := Rounded.observe_inter_token_latency Examples.coarse (lit 0.5) 1
                 (snd (Rounded.observe_inter_token_latency Examples.coarse (lit 3) 2
                         Examples.small)) in
  fst one = Returned tt ∧
  fst other = Returned tt ∧
  _buckets (inter_token_latency (snd one)) = _buckets (inter_token_latency (snd other)).
Proof.
  assert (Hn1 : (1 ≤ 1)%Z) by lia.
  assert (Hn2 : (1 ≤ 2)%Z) by lia.
  destruct (observe_inter_token_latency_either_order
              (lit (1 # 8)) Examples.coarse Examples.small (lit 0.5) 1%Z (lit 3) 2%Z
              coarse_standard Hn1 Hn2 small_inter_token_latency_wf small_counts_below)
    as (Hone & Hother & Hbuckets & _).
  split_and!; assumption.
Defined.

(** At the example rounding the order of the two calls shows in the sum:
    513/128 one way, 63/16 the other. *)
Lemma rounded_orders_differ :
  _sum (inter_token_latency
          (snd (Rounded.observe_inter_token_latency Examples.coarse (lit 3) 2
                  (snd (Rounded.observe_inter_token_latency Examples.coarse (lit 0.5) 1
                          Examples.small)))))
    = lit (513 # 128) ∧
  _sum (inter_token_latency
          (snd (Rounded.observe_inter_token_latency Examples.coarse (lit 0.5) 1
                  (snd (Rounded.observe_inter_token_latency Examples.coarse (lit 3) 2
                          Examples.small)))))
    = lit (63 # 16).
Proof. split; by_evaluation. Qed.
